(** * discord-pixiv-uploader: the artwork core of [src/pixiv/artwork.py]

    A shallow embedding of [PixivArtwork] (construction from a provider
    document, [url], [get_image_url], [create_embed] and the fetcher [get])
    together with the properties of its specification.

    Python values are those [json.loads] can produce.  Exceptions are results,
    console and network effects are nodes of a small free monad [io] that is
    interpreted over an explicit [world]. *)

From Stdlib Require Import ZArith String Ascii List Bool Lia DecimalString.
From Stdlib Require Import Floats.PrimFloat Floats.FloatOps Floats.SpecFloat.
From Stdlib Require DecimalPos DecimalZ.
From ExtLib Require Import Structures.Monad.
Import ListNotations MonadNotation.

Set Warnings "-register-all".

Local Open Scope Z_scope.
Local Open Scope string_scope.
Local Open Scope monad_scope.

(* ===================================================================== *)
(** ** Exceptions and results *)
(* ===================================================================== *)

(** The exception classes the code can meet.  [ClientError] stands for
    [aiohttp.ClientError] and its subclasses, [TimeoutError] for
    [asyncio.TimeoutError]; [OtherError] is any class outside both. *)
Inductive exn : Type :=
| KeyError (key : string)
| TypeError
| ValueError
| OverflowError
| AttributeError
| EOFError
| ClientError
| TimeoutError
| OtherError (cls : string).

(** A Python expression either yields a value or raises. *)
Inductive result (A : Type) : Type :=
| Ok (a : A)
| Err (e : exn).

Arguments Ok {A} a.
Arguments Err {A} e.

Definition result_bind {A B : Type} (r : result A) (k : A -> result B) : result B :=
  match r with
  | Ok a => k a
  | Err e => Err e
  end.

#[global] Instance Monad_result : Monad result :=
  {| ret := @Ok; bind := @result_bind |}.

(** [[f(x) for x in xs]]: left to right, the first exception wins. *)
Fixpoint traverse {A B : Type} (f : A -> result B) (xs : list A) : result (list B) :=
  match xs with
  | [] => Ok []
  | x :: rest =>
      match f x with
      | Err e => Err e
      | Ok y =>
          match traverse f rest with
          | Err e => Err e
          | Ok ys => Ok (y :: ys)
          end
      end
  end.

(* ===================================================================== *)
(** ** Python values *)
(* ===================================================================== *)

(** What [response.json()] returns: [None], [bool], [int], [float], [str],
    [list] and [dict] with [str] keys.  A dict keeps its insertion order, so
    it is an association list; lookup takes the first entry of a key. *)
Inductive pyval : Type :=
| VNone
| VBool (b : bool)
| VInt (z : Z)
| VFloat (f : float)
| VStr (s : string)
| VList (items : list pyval)
| VDict (entries : list (string * pyval)).

Fixpoint lookup (key : string) (entries : list (string * pyval)) : option pyval :=
  match entries with
  | [] => None
  | (k, v) :: rest => if String.eqb key k then Some v else lookup key rest
  end.

(** [obj[key]] for a [str] key: only a dict accepts it. *)
Definition py_getitem (obj : pyval) (key : string) : result pyval :=
  match obj with
  | VDict entries =>
      match lookup key entries with
      | Some v => Ok v
      | None => Err (KeyError key)
      end
  | _ => Err TypeError
  end.

(** [isinstance(v, dict)] and [v is None]. *)
Definition is_dict (v : pyval) : bool :=
  match v with VDict _ => true | _ => false end.

Definition is_none (v : pyval) : bool :=
  match v with VNone => true | _ => false end.

(** [bool(v)]: Python truthiness. *)
Definition py_bool (v : pyval) : bool :=
  match v with
  | VNone => false
  | VBool b => b
  | VInt z => negb (z =? 0)%Z
  | VFloat f => negb (PrimFloat.eqb f 0%float)
  | VStr s => negb (String.eqb s "")
  | VList items => match items with [] => false | _ => true end
  | VDict entries => match entries with [] => false | _ => true end
  end.

(** The items a [for] loop sees: list elements, the characters of a string
    (here the bytes of its text), the keys of a dict; the other values are
    not iterable. *)
Fixpoint chars (s : string) : list pyval :=
  match s with
  | EmptyString => []
  | String c rest => VStr (String c EmptyString) :: chars rest
  end.

Definition py_iter (v : pyval) : result (list pyval) :=
  match v with
  | VList items => Ok items
  | VStr s => Ok (chars s)
  | VDict entries => Ok (map (fun kv => VStr (fst kv)) entries)
  | _ => Err TypeError
  end.

(** [str(n)] for an [int]. *)
Definition str_of_int (z : Z) : string :=
  NilZero.string_of_int (Z.to_int z).

(** [int(f)] for a [float]: truncation toward zero; [nan] and the
    infinities raise. *)
Definition int_of_float (f : float) : result Z :=
  match Prim2SF f with
  | S754_zero _ => Ok 0
  | S754_finite sign m e =>
      let magnitude :=
        if (0 <=? e)%Z then Z.shiftl (Z.pos m) e else Z.shiftr (Z.pos m) (- e) in
      Ok (if sign then - magnitude else magnitude)
  | S754_infinity _ => Err OverflowError
  | S754_nan => Err ValueError
  end.

(** A [datetime.datetime]; [utcoffset] (seconds) is absent on a naive value. *)
Record datetime : Type := mk_datetime {
  year : Z;
  month : Z;
  day : Z;
  hour : Z;
  minute : Z;
  second : Z;
  microsecond : Z;
  utcoffset : option Z
}.

(** Functions of the Python runtime and of discord.py that the module calls
    on strings.  Their text-level behaviour (Unicode classes, the accepted
    timestamp grammar, the Markdown pattern) belongs to the interpreter and
    library version, so the model takes them as an interface:
    - [int_of_str s] is [int(s)] on a [str], [None] for [ValueError];
    - [fromisoformat s] is [datetime.fromisoformat(s)], [None] for
      [ValueError];
    - [repr_str] and [repr_float] are [repr] on [str] and [float];
    - [escape_markdown] is [discord.utils.escape_markdown]. *)
Class PyRuntime : Type := {
  int_of_str : string -> option Z;
  fromisoformat : string -> option datetime;
  repr_str : string -> string;
  repr_float : float -> string;
  escape_markdown : string -> string
}.

Section Builtins.
Context {rt : PyRuntime}.

(** [int(v)]. *)
Definition py_int (v : pyval) : result Z :=
  match v with
  | VInt z => Ok z
  | VBool b => Ok (if b then 1 else 0)
  | VFloat f => int_of_float f
  | VStr s =>
      match int_of_str s with
      | Some z => Ok z
      | None => Err ValueError
      end
  | VNone | VList _ | VDict _ => Err TypeError
  end.

(** [datetime.fromisoformat(v)]: a non-[str] argument is a [TypeError]. *)
Definition py_fromisoformat (v : pyval) : result datetime :=
  match v with
  | VStr s =>
      match fromisoformat s with
      | Some d => Ok d
      | None => Err ValueError
      end
  | _ => Err TypeError
  end.

(** [sep.join(parts)]. *)
Fixpoint join (sep : string) (parts : list string) : string :=
  match parts with
  | [] => ""
  | [p] => p
  | p :: rest => p ++ sep ++ join sep rest
  end.

(** [repr(v)] and [str(v)] (also what an f-string field prints). *)
Fixpoint py_repr (v : pyval) : string :=
  match v with
  | VNone => "None"
  | VBool b => if b then "True" else "False"
  | VInt z => str_of_int z
  | VFloat f => repr_float f
  | VStr s => repr_str s
  | VList items => "[" ++ join ", " (map py_repr items) ++ "]"
  | VDict entries =>
      "{" ++ join ", "
               (map (fun kv => let '(k, x) := kv in repr_str k ++ ": " ++ py_repr x)
                    entries) ++ "}"
  end.

Definition py_str (v : pyval) : string :=
  match v with
  | VStr s => s
  | _ => py_repr v
  end.

(** [discord.utils.escape_markdown(v)]: the regular-expression engine
    refuses anything but a string. *)
Definition escape (v : pyval) : result string :=
  match v with
  | VStr s => Ok (escape_markdown s)
  | _ => Err TypeError
  end.

End Builtins.

(* ===================================================================== *)
(** ** The value types of [src/pixiv/tags.py] and [src/pixiv/user.py] *)
(* ===================================================================== *)

(** Modelled from the spec: the link templates of [PixivArtworkTag.url] and
    [PartialUser.url] (the files that define them are not part of the
    sources at hand).  The specification only says that each is built
    deterministically from the tag name, respectively the user id, so both
    templates are parameters. *)
Class LinkTemplates : Type := {
  tag_link : pyval -> string;
  profile_link : pyval -> string
}.

Module PixivArtworkTag.

Record t : Type := mk {
  name : pyval;
  translated_name : option pyval
}.

Section Methods.
Context {rt : PyRuntime} {links : LinkTemplates}.

(** Modelled from the spec: the constructor of [PixivArtworkTag]
    ([src/pixiv/tags.py] is missing).  Section 4.1: built from a
    sub-document with at least a [tag] field and optionally a
    [translated_name] field, no validation beyond the presence of [tag]; a
    missing [tag] is a missing-field error.  A [translated_name] that is
    absent or null counts as not supplied. *)
Definition __init__ (d : pyval) : result t :=
  n <- py_getitem d "tag" ;;
  ret {| name := n;
         translated_name :=
           match py_getitem d "translated_name" with
           | Ok VNone | Err _ => None
           | Ok v => Some v
           end |}.

(** Modelled from the spec: the display rule of section 3, the translated
    name if present, else the name. *)
Definition __str__ (self : t) : string :=
  match translated_name self with
  | Some v => py_str v
  | None => py_str (name self)
  end.

(** Modelled from the spec: the navigation link, a function of [name]. *)
Definition url (self : t) : string := tag_link (name self).

End Methods.
End PixivArtworkTag.

Module PartialUser.

(** Modelled from the spec: [PartialUser] ([src/pixiv/user.py] is missing).
    Section 4.2: built from an identifier and a name, both required, not
    validated, with a profile link derived from the identifier. *)
Record t : Type := mk {
  id : pyval;
  name : pyval
}.

Definition url {links : LinkTemplates} (self : t) : string := profile_link (id self).

End PartialUser.

(* ===================================================================== *)
(** ** [discord.Embed], as far as [create_embed] drives it *)
(* ===================================================================== *)

Module Embed.

(** One entry of [Embed.fields]: discord.py stores [str(name)] and
    [str(value)]. *)
Record field : Type := mk_field {
  name : string;
  value : string;
  inline : bool
}.

Record t : Type := mk {
  title : option string;
  url : option string;
  colour : Z;
  timestamp : option datetime;
  image : option string;
  fields : list field
}.

Section Methods.
Context {rt : PyRuntime}.

(** [discord.Embed(title=..., url=..., color=..., timestamp=...)]: a title
    other than [None] is stored as [str(title)].  The timestamp is recorded
    as it is passed; the conversion that the setter of [discord.Embed]
    applies to a naive timestamp, under the time zone of the process, is
    the matter of [Localized] below. *)
Definition create (title : pyval) (url : string) (color : Z) (timestamp : datetime) : t :=
  {| title := if is_none title then None else Some (py_str title);
     url := Some url;
     colour := color;
     timestamp := Some timestamp;
     image := None;
     fields := [] |}.

End Methods.

(** [embed.set_image(url=...)]. *)
Definition set_image (embed : t) (image_url : string) : t :=
  {| title := title embed; url := url embed; colour := colour embed;
     timestamp := timestamp embed; image := Some image_url;
     fields := fields embed |}.

(** [embed.add_field(name=..., value=..., inline=...)] appends one field;
    [inline] defaults to [True]. *)
Definition add_field (embed : t) (name value : string) (inline : bool) : t :=
  {| title := title embed; url := url embed; colour := colour embed;
     timestamp := timestamp embed; image := image embed;
     fields := fields embed ++ [mk_field name value inline] |}.

(** The names of the fields, in payload order. *)
Definition field_names (embed : t) : list string := map name (fields embed).

End Embed.

(* ===================================================================== *)
(** ** Console and network effects *)
(* ===================================================================== *)

(** What [session.get(url)] hands back once the request has gone through:
    the status line, and what awaiting [response.json()] gives (a parsed
    document, or the exception it raises). *)
Record response : Type := mk_response {
  status : Z;
  json : result pyval
}.

(** A coroutine of the module: it returns, raises, or performs one of the
    three effects the code has and goes on with the answer.  [input] and
    [session.get] can raise, so their continuations receive a [result]. *)
Inductive io (A : Type) : Type :=
| Ret (a : A)
| Throw (e : exn)
| Print (text : string) (k : io A)
| Input (prompt : string) (k : result string -> io A)
| HttpGet (target : string) (k : result response -> io A).

Arguments Ret {A} a.
Arguments Throw {A} e.
Arguments Print {A} text k.
Arguments Input {A} prompt k.
Arguments HttpGet {A} target k.

Fixpoint io_bind {A B : Type} (m : io A) (f : A -> io B) : io B :=
  match m with
  | Ret a => f a
  | Throw e => Throw e
  | Print text k => Print text (io_bind k f)
  | Input prompt k => Input prompt (fun r => io_bind (k r) f)
  | HttpGet target k => HttpGet target (fun r => io_bind (k r) f)
  end.

#[global] Instance Monad_io : Monad io :=
  {| ret := @Ret; bind := @io_bind |}.

(** A pure expression inside a coroutine. *)
Definition lift {A : Type} (r : result A) : io A :=
  match r with
  | Ok a => Ret a
  | Err e => Throw e
  end.

(** [print(text)], [await asyncio.to_thread(input, prompt)] and
    [async with session.get(target) as response]. *)
Definition print (text : string) : io unit := Print text (Ret tt).
Definition input (prompt : string) : io string := Input prompt lift.
Definition session_get (target : string) : io response := HttpGet target lift.

(** [contextlib.suppress(aiohttp.ClientError, asyncio.TimeoutError)]. *)
Definition suppressed (e : exn) : bool :=
  match e with
  | ClientError | TimeoutError => true
  | _ => false
  end.

(** The [with] block: [Some a] when the body returned [a] from inside the
    block, [None] when a suppressed exception ended it (control then falls
    off the end of the block). *)
Fixpoint suppress {A : Type} (body : io A) : io (option A) :=
  match body with
  | Ret a => Ret (Some a)
  | Throw e => if suppressed e then Ret None else Throw e
  | Print text k => Print text (suppress k)
  | Input prompt k => Input prompt (fun r => suppress (k r))
  | HttpGet target k => HttpGet target (fun r => suppress (k r))
  end.

(** The outside of the process: the provider (what a GET on a URL gives),
    the lines the operator will type, what was written to the terminal and
    the requests sent so far. *)
Record world : Type := mk_world {
  provider : string -> result response;
  stdin : list string;
  stdout : list string;
  requests : list string
}.

Definition write (text : string) (w : world) : world :=
  {| provider := provider w; stdin := stdin w;
     stdout := stdout w ++ [text]; requests := requests w |}.

(** [input(prompt)] writes the prompt and reads one line; at end of input
    it raises [EOFError]. *)
Definition read_line (prompt : string) (w : world) : result string * world :=
  match stdin w with
  | [] => (Err EOFError, write prompt w)
  | line :: rest =>
      (Ok line,
       {| provider := provider w; stdin := rest;
          stdout := stdout w ++ [prompt]; requests := requests w |})
  end.

Definition send (target : string) (w : world) : result response * world :=
  (provider w target,
   {| provider := provider w; stdin := stdin w;
      stdout := stdout w; requests := requests w ++ [target] |}).

(** [print] ends its line. *)
Definition newline : string := String "010"%char EmptyString.

(** Running a coroutine to completion in a world. *)
Fixpoint run {A : Type} (m : io A) (w : world) : result A * world :=
  match m with
  | Ret a => (Ok a, w)
  | Throw e => (Err e, w)
  | Print text k => run k (write (text ++ newline) w)
  | Input prompt k => let '(r, w') := read_line prompt w in run (k r) w'
  | HttpGet target k => let '(r, w') := send target w in run (k r) w'
  end.

(** Whether a coroutine performs no effect at all. *)
Definition silent {A : Type} (m : io A) : bool :=
  match m with
  | Ret _ | Throw _ => true
  | _ => false
  end.

(** Whether a coroutine reaches the operator prompt: after printing any
    number of lines its next effect is an [Input]. *)
Fixpoint asks_operator {A : Type} (m : io A) : bool :=
  match m with
  | Input _ _ => true
  | Print _ k => asks_operator k
  | _ => false
  end.

(* ===================================================================== *)
(** ** [class PixivArtwork] *)
(* ===================================================================== *)

Module PixivArtwork.

(** [self.tags] after construction: the [PixivArtworkTag] objects built
    from the nested form, or the provider's value as it came. *)
Inductive tag_list : Type :=
| TagObjects (objs : list PixivArtworkTag.t)
| AsGiven (v : pyval).

(** The slots of an instance.  [__init__] converts [id] with [int] and
    [nsfw] with [bool]; the other slots hold what the document held. *)
Record t : Type := mk {
  id : Z;
  title : pyval;
  author : PartialUser.t;
  nsfw : bool;
  created_at : datetime;
  tags : tag_list;
  width : pyval;
  height : pyval;
  pages_count : pyval;
  image_urls : pyval
}.

(** One item of the loop [for tag in self.tags]. *)
Inductive tag_item : Type :=
| TagObject (tag : PixivArtworkTag.t)
| Plain (v : pyval).

Section Methods.
Context {rt : PyRuntime} {links : LinkTemplates}.

(** The [tags] branch of [__init__] (lines 53-57). *)
Definition init_tags (tags_value : pyval) : result tag_list :=
  if is_dict tags_value then
    nested <- py_getitem tags_value "tags" ;;
    items <- py_iter nested ;;
    objs <- traverse PixivArtworkTag.__init__ items ;;
    ret (TagObjects objs)
  else
    ret (AsGiven tags_value).

(** [PixivArtwork(data)]. *)
Definition __init__ (data : pyval) : result t :=
  id_value <- py_getitem data "id" ;;
  id <- py_int id_value ;;
  title <- py_getitem data "title" ;;
  user_id <- py_getitem data "userId" ;;
  user_name <- py_getitem data "userName" ;;
  x_restrict <- py_getitem data "xRestrict" ;;
  create_date <- py_getitem data "createDate" ;;
  created_at <- py_fromisoformat create_date ;;
  tags_value <- py_getitem data "tags" ;;
  tags <- init_tags tags_value ;;
  width <- py_getitem data "width" ;;
  height <- py_getitem data "height" ;;
  pages_count <- py_getitem data "pageCount" ;;
  image_urls <- py_getitem data "urls" ;;
  ret {| id := id;
         title := title;
         author := PartialUser.mk user_id user_name;
         nsfw := py_bool x_restrict;
         created_at := created_at;
         tags := tags;
         width := width;
         height := height;
         pages_count := pages_count;
         image_urls := image_urls |}.

(** The [url] property. *)
Definition url (self : t) : string :=
  "https://www.pixiv.net/en/artworks/" ++ str_of_int (id self).

(** [get_image_url]: the value under ["regular"], or, when that value is
    [None], the line the operator types. *)
Definition get_image_url (self : t) : io pyval :=
  url <- lift (py_getitem (image_urls self) "regular") ;;
  if negb (is_none url) then ret url
  else
    print ("Cannot fetch image URL for artwork " ++ str_of_int (id self)
           ++ ", please enter it manually.") ;;
    line <- input "image URL>" ;;
    ret (VStr line).

(** [if self.tags:]. *)
Definition tags_truthy (tags : tag_list) : bool :=
  match tags with
  | TagObjects objs => match objs with [] => false | _ => true end
  | AsGiven v => py_bool v
  end.

(** [for tag in self.tags]. *)
Definition tags_iter (tags : tag_list) : result (list tag_item) :=
  match tags with
  | TagObjects objs => Ok (map TagObject objs)
  | AsGiven v => items <- py_iter v ;; ret (map Plain items)
  end.

(** [f"[{str(tag)}]({tag.url})"]: [str] works on every value, the [url]
    attribute exists on a [PixivArtworkTag] only. *)
Definition tag_markup (item : tag_item) : result string :=
  match item with
  | TagObject tag =>
      Ok ("[" ++ PixivArtworkTag.__str__ tag ++ "](" ++ PixivArtworkTag.url tag ++ ")")
  | Plain _ => Err AttributeError
  end.

(** [create_embed(attachment_name=...)], with the timestamp as the
    Artwork holds it (see [Localized.create_embed] for its conversion). *)
Definition create_embed (self : t) (attachment_name : string) : result Embed.t :=
  let embed := Embed.create (title self) (url self) 3066993 (created_at self) in
  let embed := Embed.set_image embed ("attachment://" ++ attachment_name) in
  embed <- (if tags_truthy (tags self) then
              items <- tags_iter (tags self) ;;
              parts <- traverse tag_markup items ;;
              ret (Embed.add_field embed "Tags" (join ", " parts) false)
            else ret embed) ;;
  let embed := Embed.add_field embed "Artwork ID" (str_of_int (id self)) true in
  author_name <- escape (PartialUser.name (author self)) ;;
  let embed :=
    Embed.add_field embed "Author"
      ("[" ++ author_name ++ "](" ++ PartialUser.url (author self) ++ ")") true in
  let embed :=
    Embed.add_field embed "Size"
      (py_str (width self) ++ " x " ++ py_str (height self)) true in
  let embed := Embed.add_field embed "Pages count" (py_str (pages_count self)) true in
  let embed := Embed.add_field embed "Artwork link" (url self) false in
  ret embed.

(** The body of the [with contextlib.suppress(...)] block of [get]. *)
Definition get_body (artwork_id : Z) : io (option t) :=
  response <- session_get ("https://www.pixiv.net/ajax/illust/" ++ str_of_int artwork_id) ;;
  if negb (status response =? 200)%Z then ret None
  else
    data <- lift (json response) ;;
    error <- lift (py_getitem data "error") ;;
    if py_bool error then ret None
    else
      body <- lift (py_getitem data "body") ;;
      artwork <- lift (__init__ body) ;;
      ret (Some artwork).

(** [PixivArtwork.get(artwork_id, session=session)]: a bare [return], and
    falling off the [with] block after a suppressed exception, both give
    [None]. *)
Definition get (artwork_id : Z) : io (option t) :=
  returned <- suppress (get_body artwork_id) ;;
  ret (match returned with
       | Some value => value
       | None => None
       end).

End Methods.
End PixivArtwork.

(* ===================================================================== *)
(** ** Vocabulary of the statements *)
(* ===================================================================== *)

(** The line [get_image_url] prints before it asks. *)
Definition manual_notice (self : PixivArtwork.t) : string :=
  "Cannot fetch image URL for artwork " ++ str_of_int (PixivArtwork.id self)
  ++ ", please enter it manually.".

(** What [get_image_url] does with the operator's answer. *)
Definition typed_line (r : result string) : io pyval :=
  line <- lift r ;; ret (VStr line).

(** [r] raises nothing but exceptions that satisfy [P]. *)
Definition raises_only {A : Type} (P : exn -> Prop) (r : result A) : Prop :=
  match r with
  | Ok _ => True
  | Err e => P e
  end.

(** An exception that [contextlib.suppress] of [get] lets through. *)
Definition escapes (e : exn) : Prop := suppressed e = false.

(** The URL [get] requests, and the world after that one request. *)
Definition illust_url (artwork_id : Z) : string :=
  "https://www.pixiv.net/ajax/illust/" ++ str_of_int artwork_id.

Definition after_request (artwork_id : Z) (w : world) : world :=
  snd (send (illust_url artwork_id) w).

(** What [get] returns on a 200 response whose body parsed to [data]. *)
Definition read_envelope {rt : PyRuntime} (data : pyval) : result (option PixivArtwork.t) :=
  flag <- py_getitem data "error" ;;
  if py_bool flag then ret None
  else
    body <- py_getitem data "body" ;;
    artwork <- PixivArtwork.__init__ body ;;
    ret (Some artwork).

(** What [get] returns, by the provider's answer. *)
Definition get_outcome {rt : PyRuntime} (answer : result response)
  : result (option PixivArtwork.t) :=
  match answer with
  | Err e => if suppressed e then Ok None else Err e
  | Ok r =>
      if negb (status r =? 200)%Z then Ok None
      else
        match json r with
        | Err e => if suppressed e then Ok None else Err e
        | Ok data => read_envelope data
        end
  end.

(** The field names of a payload, by whether it carries tags. *)
Definition expected_fields (with_tags : bool) : list string :=
  ((if with_tags then ["Tags"] else []) ++
   ["Artwork ID"; "Author"; "Size"; "Pages count"; "Artwork link"])%list.

(* ===================================================================== *)
(** ** The construction steps, as the specification lists them *)
(* ===================================================================== *)

(** The required fields of section 4.3, in the order [__init__] reads
    them. *)
Definition required_fields : list string :=
  ["id"; "title"; "userId"; "userName"; "xRestrict"; "createDate"; "tags";
   "width"; "height"; "pageCount"; "urls"].

Section Steps.
Context {rt : PyRuntime}.

(** What the construction does with a field beyond reading it: [id] goes
    through [int], [createDate] through [fromisoformat], [tags] through the
    polymorphic branch; the other fields are stored as they are. *)
Definition field_check (key : string) (v : pyval) : result unit :=
  if String.eqb key "id" then _ <- py_int v ;; ret tt
  else if String.eqb key "createDate" then _ <- py_fromisoformat v ;; ret tt
  else if String.eqb key "tags" then _ <- PixivArtwork.init_tags v ;; ret tt
  else ret tt.

(** The exception of the first step that fails, reading [keys] in order. *)
Fixpoint first_failure (data : pyval) (keys : list string) : option exn :=
  match keys with
  | [] => None
  | key :: rest =>
      match py_getitem data key with
      | Err e => Some e
      | Ok v =>
          match field_check key v with
          | Err e => Some e
          | Ok _ => first_failure data rest
          end
      end
  end.

End Steps.

(** The claim "a malformed timestamp gives a parse error, an absent
    required field gives a missing-field error, and every other document
    gives an Artwork", read on one document. *)
Definition trichotomy {rt : PyRuntime} (data : pyval) : Prop :=
  (forall s, py_getitem data "createDate" = Ok (VStr s) -> fromisoformat s = None ->
             PixivArtwork.__init__ data = Err ValueError)
  /\ (forall key, In key required_fields -> py_getitem data key = Err (KeyError key) ->
                  exists missing, PixivArtwork.__init__ data = Err (KeyError missing))
  /\ ((forall key, In key required_fields -> exists v, py_getitem data key = Ok v) ->
      (exists s d, py_getitem data "createDate" = Ok (VStr s) /\ fromisoformat s = Some d) ->
      exists self, PixivArtwork.__init__ data = Ok self).

(** The three causes of absence that [get] knows, read on the provider's
    answer to the request: an exception of a suppressed class raised by the
    HTTP client (while sending, or while reading the body of a 200
    response), a status other than 200, a truthy [error] flag. *)
Inductive absence : result response -> Prop :=
| transport_error (e : exn) :
    suppressed e = true -> absence (Err e)
| transport_error_in_body (r : response) (e : exn) :
    status r = 200 -> json r = Err e -> suppressed e = true -> absence (Ok r)
| status_not_200 (r : response) :
    status r <> 200 -> absence (Ok r)
| error_flag (r : response) (data flag : pyval) :
    status r = 200 -> json r = Ok data ->
    py_getitem data "error" = Ok flag -> py_bool flag = true -> absence (Ok r).

(* ===================================================================== *)
(** ** A reference runtime and the documents of the examples *)
(* ===================================================================== *)

Module Reference.

(** [int(s)] on plain decimal literals (an optional minus sign and
    digits). *)
Definition decimal_int (s : string) : option Z :=
  option_map Z.of_int (NilZero.int_of_string s).

Definition digit (c : ascii) : option Z :=
  let n := Z.of_N (N_of_ascii c) in
  if ((48 <=? n) && (n <=? 57))%Z then Some (n - 48) else None.

Fixpoint number (acc : Z) (cs : list ascii) : option Z :=
  match cs with
  | [] => Some acc
  | c :: rest =>
      match digit c with
      | Some d => number (10 * acc + d) rest
      | None => None
      end
  end.

Definition is_leap (y : Z) : bool :=
  ((y mod 4 =? 0) && (negb (y mod 100 =? 0) || (y mod 400 =? 0)))%Z.

Definition days_in_month (y m : Z) : Z :=
  if (m =? 2)%Z then (if is_leap y then 29 else 28)
  else if ((m =? 4) || (m =? 6) || (m =? 9) || (m =? 11))%Z then 30
  else 31.

Definition valid_date (y m d : Z) : bool :=
  ((1 <=? y) && (1 <=? m) && (m <=? 12) && (1 <=? d) && (d <=? days_in_month y m))%Z.

Definition valid_time (h mi s : Z) : bool :=
  ((h <? 24) && (mi <? 60) && (s <? 60))%Z.

(** [datetime.fromisoformat] on the two plainest layouts, [YYYY-MM-DD] and
    [YYYY-MM-DD?HH:MM:SS] with any one separator character. *)
Definition iso_basic (s : string) : option datetime :=
  match list_ascii_of_string s with
  | [y1; y2; y3; y4; "-"; m1; m2; "-"; d1; d2]%char =>
      match number 0 [y1; y2; y3; y4], number 0 [m1; m2], number 0 [d1; d2] with
      | Some y, Some m, Some d =>
          if valid_date y m d then Some (mk_datetime y m d 0 0 0 0 None) else None
      | _, _, _ => None
      end
  | [y1; y2; y3; y4; "-"; m1; m2; "-"; d1; d2; _;
     h1; h2; ":"; i1; i2; ":"; s1; s2]%char =>
      match number 0 [y1; y2; y3; y4], number 0 [m1; m2], number 0 [d1; d2],
            number 0 [h1; h2], number 0 [i1; i2], number 0 [s1; s2] with
      | Some y, Some m, Some d, Some h, Some mi, Some sec =>
          if valid_date y m d && valid_time h mi sec
          then Some (mk_datetime y m d h mi sec 0 None) else None
      | _, _, _, _, _, _ => None
      end
  | _ => None
  end.

(** [repr] of a string without quotes, backslashes or control
    characters. *)
Definition quoted (s : string) : string := "'" ++ s ++ "'".

(** [repr] of a float with an integral value. *)
Definition integral_repr (f : float) : string :=
  match int_of_float f with
  | Ok z => str_of_int z ++ ".0"
  | Err ValueError => "nan"
  | Err _ => "inf"
  end.

Definition markdown_special (c : ascii) : bool :=
  existsb (Ascii.eqb c) ["*"; "_"; "`"; "~"; "|"; "\"]%char.

(** [escape_markdown] on one line of text without links, quotes or list
    markers: a backslash before each Markdown character. *)
Fixpoint backslash_escape (s : string) : string :=
  match s with
  | EmptyString => EmptyString
  | String c rest =>
      if markdown_special c then String "\"%char (String c (backslash_escape rest))
      else String c (backslash_escape rest)
  end.

(** A runtime that agrees with CPython and discord.py on the plain inputs
    described above; it serves to evaluate the model on the examples. *)
Definition runtime : PyRuntime :=
  {| int_of_str := decimal_int;
     fromisoformat := iso_basic;
     repr_str := quoted;
     repr_float := integral_repr;
     escape_markdown := backslash_escape |}.

(** Link templates to evaluate the examples with (the provider's own are
    in the files that are not at hand). *)
Definition templates : LinkTemplates :=
  {| tag_link := fun n => "https://www.pixiv.net/en/tags/" ++ @py_str runtime n ++ "/artworks";
     profile_link := fun i => "https://www.pixiv.net/en/users/" ++ @py_str runtime i |}.

(** The document of the specification's example (section 8). *)
Definition sunset : pyval :=
  VDict [("id", VStr "123"); ("title", VStr "Sunset"); ("userId", VInt 5);
         ("userName", VStr "Ann"); ("xRestrict", VInt 0);
         ("createDate", VStr "2023-01-01T00:00:00");
         ("tags", VList [VStr "calm"; VStr "sky"]);
         ("width", VInt 800); ("height", VInt 600); ("pageCount", VInt 1);
         ("urls", VDict [("regular", VStr "http://x/img.png")])].

(** [d] with the entry of [key] replaced (or added in front). *)
Definition with_field (key : string) (v : pyval) (d : pyval) : pyval :=
  match d with
  | VDict entries => VDict ((key, v) :: entries)
  | other => other
  end.

(** [d] without the entries of [key]. *)
Definition without_field (key : string) (d : pyval) : pyval :=
  match d with
  | VDict entries => VDict (filter (fun kv => negb (String.eqb key (fst kv))) entries)
  | other => other
  end.

(** The same artwork with the nested form of [tags], one tag translated. *)
Definition sunset_nested : pyval :=
  with_field "tags"
    (VDict [("tags", VList [VDict [("tag", VStr "calm")];
                            VDict [("tag", VStr "sora"); ("translated_name", VStr "sky")]])])
    sunset.

(** The Artwork [PixivArtwork(sunset)] is, slot by slot. *)
Definition sunset_artwork : PixivArtwork.t :=
  {| PixivArtwork.id := 123;
     PixivArtwork.title := VStr "Sunset";
     PixivArtwork.author := PartialUser.mk (VInt 5) (VStr "Ann");
     PixivArtwork.nsfw := false;
     PixivArtwork.created_at := mk_datetime 2023 1 1 0 0 0 0 None;
     PixivArtwork.tags := PixivArtwork.AsGiven (VList [VStr "calm"; VStr "sky"]);
     PixivArtwork.width := VInt 800;
     PixivArtwork.height := VInt 600;
     PixivArtwork.pages_count := VInt 1;
     PixivArtwork.image_urls := VDict [("regular", VStr "http://x/img.png")] |}.

(** [a] as it would be had the document held [urls] under ["urls"]. *)
Definition with_image_urls (urls : pyval) (a : PixivArtwork.t) : PixivArtwork.t :=
  {| PixivArtwork.id := PixivArtwork.id a;
     PixivArtwork.title := PixivArtwork.title a;
     PixivArtwork.author := PixivArtwork.author a;
     PixivArtwork.nsfw := PixivArtwork.nsfw a;
     PixivArtwork.created_at := PixivArtwork.created_at a;
     PixivArtwork.tags := PixivArtwork.tags a;
     PixivArtwork.width := PixivArtwork.width a;
     PixivArtwork.height := PixivArtwork.height a;
     PixivArtwork.pages_count := PixivArtwork.pages_count a;
     PixivArtwork.image_urls := urls |}.

(** A provider that answers every request with [r], an operator who will
    type [lines], a fresh terminal. *)
Definition world_of (r : result response) (lines : list string) : world :=
  {| provider := fun _ => r; stdin := lines; stdout := []; requests := [] |}.

(** The envelope [{"error": false, "body": body}] in a 200 response. *)
Definition ok_response (body : pyval) : response :=
  {| status := 200; json := Ok (VDict [("error", VBool false); ("body", body)]) |}.

End Reference.

(* ===================================================================== *)
(** ** Regular expressions, as far as [src/main.py] uses them *)
(* ===================================================================== *)

(** The constructs of the pattern in [URL_PATTERN]: literal characters
    (escaped or not), [.], [\d], concatenation, the greedy [?] and [*], and
    numbered groups.  Text is a byte string here, so [\d] is the class of
    the ten ASCII digits, which is what [re] matches on ASCII text. *)
Inductive regex : Type :=
| Eps
| Lit (c : ascii)
| AnyChar
| DigitChar
| Cat (first second : regex)
| Maybe (body : regex)
| ZeroOrMore (body : regex)
| Group (index : nat) (body : regex).

(** [r+] is [r] followed by [r*]. *)
Definition OneOrMore (body : regex) : regex := Cat body (ZeroOrMore body).

(** The literal text [text]. *)
Fixpoint Text (text : string) : regex :=
  match text with
  | EmptyString => Eps
  | String c rest => Cat (Lit c) (Text rest)
  end.

(** Captured groups, the latest capture of an index first. *)
Definition captures : Type := list (nat * string).

Definition is_digit (c : ascii) : bool :=
  ((48 <=? N_of_ascii c) && (N_of_ascii c <=? 57))%N.

Definition is_newline (c : ascii) : bool := Ascii.eqb c "010"%char.

(** What a match consumed: the part of [before] that [after] lacks. *)
Definition consumed (before after : string) : string :=
  substring 0 (String.length before - String.length after) before.

(** A greedy loop: one more round of [step] if it makes progress and the
    rest then matches, else go on with [k]. *)
Fixpoint repeat_greedy
    (step : string -> captures -> (string -> captures -> option captures) -> option captures)
    (k : string -> captures -> option captures)
    (rounds : nat) (s : string) (g : captures) : option captures :=
  match rounds with
  | O => k s g
  | S rounds' =>
      match step s g (fun s' g' =>
                        if (String.length s' <? String.length s)%nat
                        then repeat_greedy step k rounds' s' g'
                        else None) with
      | Some found => Some found
      | None => k s g
      end
  end.

(** The backtracking matcher: [backtrack r s g k] matches [r] at the head
    of [s] and hands the rest of the text to [k]; alternatives are tried in
    the order of the engine (greedy first), and the first one under which
    [k] succeeds is the match. *)
Fixpoint backtrack (r : regex) (s : string) (g : captures)
    (k : string -> captures -> option captures) {struct r} : option captures :=
  match r with
  | Eps => k s g
  | Lit c =>
      match s with
      | String c' s' => if Ascii.eqb c' c then k s' g else None
      | EmptyString => None
      end
  | AnyChar =>
      match s with
      | String c' s' => if is_newline c' then None else k s' g
      | EmptyString => None
      end
  | DigitChar =>
      match s with
      | String c' s' => if is_digit c' then k s' g else None
      | EmptyString => None
      end
  | Cat first second =>
      backtrack first s g (fun s' g' => backtrack second s' g' k)
  | Maybe body =>
      match backtrack body s g k with
      | Some found => Some found
      | None => k s g
      end
  | ZeroOrMore body =>
      repeat_greedy (backtrack body) k (String.length s) s g
  | Group index body =>
      backtrack body s g (fun s' g' => k s' ((index, consumed s s') :: g'))
  end.

(** [pattern.fullmatch(text)]: the first match that ends at the end of the
    text, as its captures. *)
Definition fullmatch (pattern : regex) (text : string) : option captures :=
  backtrack pattern text []
    (fun rest g => match rest with EmptyString => Some g | _ => None end).

(** [match.group(index)]. *)
Fixpoint group (index : nat) (g : captures) : option string :=
  match g with
  | [] => None
  | (i, text) :: rest => if Nat.eqb i index then Some text else group index rest
  end.

(** [re.compile(r"https://www\.pixiv\.net/(en/)?artworks/(\d+)/?.*")]. *)
Definition URL_PATTERN : regex :=
  Cat (Text "https://www.pixiv.net/")
    (Cat (Maybe (Group 1 (Text "en/")))
       (Cat (Text "artworks/")
          (Cat (Group 2 (OneOrMore DigitChar))
             (Cat (Maybe (Lit "/")) (ZeroOrMore AnyChar))))).

(** The text after [prefix], when [text] starts with it. *)
Fixpoint strip_prefix (prefix text : string) : option string :=
  match prefix, text with
  | EmptyString, _ => Some text
  | String p prefix', String c text' =>
      if Ascii.eqb c p then strip_prefix prefix' text' else None
  | String _ _, EmptyString => None
  end.

(** The longest run of digits at the head of a text, and what follows. *)
Fixpoint span_digits (text : string) : string * string :=
  match text with
  | String c rest =>
      if is_digit c
      then let '(digits, tail) := span_digits rest in (String c digits, tail)
      else (EmptyString, text)
  | EmptyString => (EmptyString, EmptyString)
  end.

Fixpoint no_newline (text : string) : bool :=
  match text with
  | EmptyString => true
  | String c rest => negb (is_newline c) && no_newline rest
  end.

(** The end of the text, as [fullmatch] requires it. *)
Definition at_end (rest : string) (g : captures) : option captures :=
  match rest with
  | EmptyString => Some g
  | _ => None
  end.

Fixpoint all_digits (text : string) : bool :=
  match text with
  | EmptyString => true
  | String c rest => is_digit c && all_digits rest
  end.

Definition starts_with_digit (text : string) : bool :=
  match text with
  | String c _ => is_digit c
  | EmptyString => false
  end.

(** Which links [URL_PATTERN] accepts, read off the pattern by hand: the
    site prefix, an optional [en/], [artworks/], then digits (this is group
    2, the longest run), then anything on the same line. *)
Definition artwork_digits (link : string) : option string :=
  match strip_prefix "https://www.pixiv.net/" link with
  | None => None
  | Some after_site =>
      let after_locale :=
        match strip_prefix "en/" after_site with
        | Some rest => rest
        | None => after_site
        end in
      match strip_prefix "artworks/" after_locale with
      | None => None
      | Some after_path =>
          let '(digits, tail) := span_digits after_path in
          match digits with
          | EmptyString => None
          | _ => if no_newline tail then Some digits else None
          end
      end
  end.

(* ===================================================================== *)
(** ** The command loop of [src/main.py] *)
(* ===================================================================== *)

(** The two library functions the loop calls on the command line:
    [shlex_split s] is [shlex.split(s)], [None] when it raises
    [ValueError]; [lower] is [str.lower]. *)
Class Host : Type := {
  shlex_split : string -> option (list string);
  lower : string -> string
}.

(** What [session.get(image_url, ...)] gives once the request has gone
    through: the status, and what awaiting [response.read()] gives. *)
Record download : Type := mk_download {
  download_status : Z;
  content : result string
}.

(** The request of [session.post]: the [Authorization] header, and the
    form with its [payload_json] field (the embeds and the attachment
    descriptors, each an id and a file name) and its [files[0]] field. *)
Record message : Type := mk_message {
  authorization : string;
  embeds : list Embed.t;
  attachments : list (Z * string);
  file : string
}.

(** The coroutine [main]: on top of what the artwork module does (a [Core]
    step), it downloads an image and posts a message. *)
Inductive shell (A : Type) : Type :=
| Done (a : A)
| Crash (e : exn)
| Core {X : Type} (m : io X) (k : result X -> shell A)
| Download (target : pyval) (referer : string) (k : result download -> shell A)
| Post (endpoint : string) (form : message) (k : result Z -> shell A).

Arguments Done {A} a.
Arguments Crash {A} e.
Arguments Core {A X} m k.
Arguments Download {A} target referer k.
Arguments Post {A} endpoint form k.

Fixpoint shell_bind {A B : Type} (m : shell A) (f : A -> shell B) : shell B :=
  match m with
  | Done a => f a
  | Crash e => Crash e
  | Core c k => Core c (fun r => shell_bind (k r) f)
  | Download target referer k => Download target referer (fun r => shell_bind (k r) f)
  | Post endpoint form k => Post endpoint form (fun r => shell_bind (k r) f)
  end.

#[global] Instance Monad_shell : Monad shell :=
  {| ret := @Done; bind := @shell_bind |}.

(** A pure expression, and a coroutine of the artwork module, inside
    [main]; an exception they raise is not handled there. *)
Definition pure {A : Type} (r : result A) : shell A :=
  match r with
  | Ok a => Done a
  | Err e => Crash e
  end.

Definition core {A : Type} (m : io A) : shell A := Core m pure.

Definition say (text : string) : shell unit := core (print text).

(** The world of [main]: the world of the artwork module, the image
    server, the messaging platform, and the logs of the downloads
    requested and of the messages posted. *)
Record host : Type := mk_host {
  core_world : world;
  image_server : pyval -> result download;
  platform : string -> message -> result Z;
  downloads : list pyval;
  posts : list (string * message)
}.

Definition with_core (w : world) (h : host) : host :=
  {| core_world := w; image_server := image_server h; platform := platform h;
     downloads := downloads h; posts := posts h |}.

Fixpoint run_shell {A : Type} (m : shell A) (h : host) : result A * host :=
  match m with
  | Done a => (Ok a, h)
  | Crash e => (Err e, h)
  | Core c k =>
      let '(r, w) := run c (core_world h) in run_shell (k r) (with_core w h)
  | Download target referer k =>
      run_shell (k (image_server h target))
        {| core_world := core_world h; image_server := image_server h;
           platform := platform h; downloads := downloads h ++ [target];
           posts := posts h |}
  | Post endpoint form k =>
      run_shell (k (platform h endpoint form))
        {| core_world := core_world h; image_server := image_server h;
           platform := platform h; downloads := downloads h;
           posts := posts h ++ [(endpoint, form)] |}
  end.

(** [commands.sort()]: strings in code point order. *)
Fixpoint insert_sorted (x : string) (sorted : list string) : list string :=
  match sorted with
  | [] => [x]
  | y :: rest => if String.leb x y then x :: sorted else y :: insert_sorted x rest
  end.

Definition sort (items : list string) : list string :=
  fold_right insert_sorted [] items.

(** [text * count]. *)
Fixpoint times (text : string) (count : nat) : string :=
  match count with
  | O => ""
  | S count' => text ++ times text count'
  end.

(** How one round of the loop ends: [continue] (or falling through to
    the next round) with the channel to go on with, or [return]. *)
Inductive control : Type :=
| Continue (current_channel : option string)
| Return.

(** How a bounded number of rounds ends. *)
Inductive ending : Type :=
| Returned
| Unfinished (current_channel : option string).

(** [TOKEN], set when the module is loaded: the environment variable, or
    else a line asked from the operator. *)
Definition TOKEN (environ_token : option string) : io string :=
  match environ_token with
  | Some value => Ret value
  | None => input "Enter bot token>"
  end.

Section Main.
Context {rt : PyRuntime} {links : LinkTemplates} {os : Host}.
Variable token : string.

(** [command, *arguments = shlex.split(text_cmd)] under
    [except ValueError]: both a line that [shlex] refuses and a line with
    no word at all (nothing to unpack) raise it. *)
Definition split_command (text_cmd : string) : option (string * list string) :=
  match shlex_split text_cmd with
  | None => None
  | Some [] => None
  | Some (command :: arguments) => Some (command, arguments)
  end.

(** [int(match.group(2))]. *)
Definition group_as_int (found : captures) : result Z :=
  match group 2 found with
  | Some digits => py_int (VStr digits)
  | None => Err TypeError
  end.

(** Lines 74-81: the image download under [except aiohttp.ClientError].
    [raise_for_status] raises a [ClientError] on a status of 400 or more. *)
Definition read_image (fetched : result download) : result string :=
  match fetched with
  | Err e => Err e
  | Ok d => if (400 <=? download_status d)%Z then Err ClientError else content d
  end.

(** Lines 82-116: the message and its posting. *)
Definition post_artwork (channel : string) (artwork : PixivArtwork.t) (data : string)
  : shell unit :=
  embed <- pure (PixivArtwork.create_embed artwork "image.png") ;;
  Post ("https://discord.com/api/v10/channels/" ++ channel ++ "/messages")
    {| authorization := "Bot " ++ token;
       embeds := [embed];
       attachments := [(0, "image.png")];
       file := data |}
    (fun posted =>
       match posted with
       | Ok code => say ("HTTP status " ++ str_of_int code)
       | Err e => Crash e
       end).

(** Lines 62-116: the [send] command once a channel and a URL are there. *)
Definition send_url (channel url : string) : shell unit :=
  match fullmatch URL_PATTERN url with
  | None => say ("Invalid URL: " ++ url)
  | Some found =>
      artwork_id <- pure (group_as_int found) ;;
      found_artwork <- core (PixivArtwork.get artwork_id) ;;
      match found_artwork with
      | None => say "Cannot find such artwork!"
      | Some artwork =>
          image_url <- core (PixivArtwork.get_image_url artwork) ;;
          Download image_url "https://www.pixiv.net/"
            (fun fetched =>
               match read_image fetched with
               | Err ClientError =>
                   say ("Cannot fetch image from " ++ py_str image_url ++ "!")
               | Err e => Crash e
               | Ok data => post_artwork channel artwork data
               end)
      end
  end.

(** The [help] text. *)
Definition help_heading : string := "Available commands:" ++ newline ++ times "-" 20.

Definition help_body : string :=
  join newline (sort ["help"; "quit"; "set <channel ID>"; "send <Pixiv URL>"]).

(** Lines 26-119: what a round does with the line it has read. *)
Definition dispatch (current_channel : option string) (text_cmd : string) : shell control :=
  match split_command text_cmd with
  | None => say "Invalid command" ;; ret (Continue current_channel)
  | Some (command, arguments) =>
      let command := lower command in
      if String.eqb command "help" then
        say help_heading ;; say help_body ;; ret (Continue current_channel)
      else if String.eqb command "quit" then
        ret Return
      else if String.eqb command "set" then
        match arguments with
        | [] => say "Missing argument" ;; ret (Continue current_channel)
        | channel :: _ =>
            say ("Set target channel ID to " ++ channel) ;;
            ret (Continue (Some channel))
        end
      else if String.eqb command "send" then
        match current_channel with
        | None =>
            say "Please set current channel first!" ;; ret (Continue current_channel)
        | Some channel =>
            match arguments with
            | [] => say "Missing argument" ;; ret (Continue current_channel)
            | url :: _ => send_url channel url ;; ret (Continue current_channel)
            end
        end
      else
        say ("Unknown command: " ++ command) ;; ret (Continue current_channel)
  end.

(** One round of [while True] (lines 25-119). *)
Definition round (current_channel : option string) : shell control :=
  text_cmd <- core (input "command>") ;;
  dispatch current_channel text_cmd.

(** [main], for at most [rounds] rounds of its loop, from a given
    channel ([None] at the start). *)
Fixpoint main_from (rounds : nat) (current_channel : option string) : shell ending :=
  match rounds with
  | O => ret (Unfinished current_channel)
  | S rounds' =>
      next <- round current_channel ;;
      match next with
      | Return => ret Returned
      | Continue channel => main_from rounds' channel
      end
  end.

Definition main (rounds : nat) : shell ending := main_from rounds None.

End Main.

(** The host once a line has been written to the terminal, and once the
    prompt has been answered with the first line of input. *)
Definition said (text : string) (h : host) : host :=
  with_core (write (text ++ newline) (core_world h)) h.

Definition prompted (prompt : string) (rest : list string) (h : host) : host :=
  with_core {| provider := provider (core_world h); stdin := rest;
               stdout := stdout (core_world h) ++ [prompt];
               requests := requests (core_world h) |} h.

(** The part of the host that is the network: requests to the provider,
    downloads, posts. *)
Definition traffic (h : host) : list string * list pyval * list (string * message) :=
  (requests (core_world h), downloads h, posts h).

(** The host once a download of [target] has been requested, and once
    [form] has been posted to [endpoint]. *)
Definition downloaded (target : pyval) (h : host) : host :=
  {| core_world := core_world h; image_server := image_server h;
     platform := platform h; downloads := downloads h ++ [target];
     posts := posts h |}.

Definition posted (endpoint : string) (form : message) (h : host) : host :=
  {| core_world := core_world h; image_server := image_server h;
     platform := platform h; downloads := downloads h;
     posts := posts h ++ [(endpoint, form)] |}.

(** The endpoint and the form of the message [main] posts. *)
Definition endpoint_of (channel : string) : string :=
  "https://discord.com/api/v10/channels/" ++ channel ++ "/messages".

Definition form_of (token : string) (embed : Embed.t) (data : string) : message :=
  {| authorization := "Bot " ++ token;
     embeds := [embed];
     attachments := [(0, "image.png")];
     file := data |}.

(* ===================================================================== *)
(** ** Rendering under the time zone of the process *)
(* ===================================================================== *)

(** [datetime.astimezone()] without argument, the call [discord.Embed]
    makes on a naive timestamp: it reads the time zone of the process and
    attaches it, and raises on the dates the platform cannot convert.  What
    it returns belongs to the process and its platform, so it is an
    interface like the functions of [PyRuntime]. *)
Class LocalZone : Type := {
  astimezone : datetime -> result datetime
}.

Module Localized.

Section Methods.
Context {rt : PyRuntime} {links : LinkTemplates} {zone : LocalZone}.

(** The [timestamp] setter of [discord.Embed]: a naive datetime (no
    [tzinfo]) is converted with [astimezone()], an aware one is kept. *)
Definition set_timestamp (value : datetime) : result datetime :=
  match utcoffset value with
  | None => astimezone value
  | Some _ => Ok value
  end.

(** [discord.Embed(title=..., url=..., color=..., timestamp=...)], with
    the conversion its setter makes. *)
Definition Embed_init (title : pyval) (url : string) (color : Z) (timestamp : datetime)
  : result Embed.t :=
  stamp <- set_timestamp timestamp ;;
  ret {| Embed.title := if is_none title then None else Some (py_str title);
         Embed.url := Some url;
         Embed.colour := color;
         Embed.timestamp := Some stamp;
         Embed.image := None;
         Embed.fields := [] |}.

(** [create_embed(attachment_name=...)] (lines 76-115), statement by
    statement, the constructor of the embed first. *)
Definition create_embed (self : PixivArtwork.t) (attachment_name : string)
  : result Embed.t :=
  embed <- Embed_init (PixivArtwork.title self) (PixivArtwork.url self) 3066993
             (PixivArtwork.created_at self) ;;
  let embed := Embed.set_image embed ("attachment://" ++ attachment_name) in
  embed <- (if PixivArtwork.tags_truthy (PixivArtwork.tags self) then
              items <- PixivArtwork.tags_iter (PixivArtwork.tags self) ;;
              parts <- traverse PixivArtwork.tag_markup items ;;
              ret (Embed.add_field embed "Tags" (join ", " parts) false)
            else ret embed) ;;
  let embed :=
    Embed.add_field embed "Artwork ID" (str_of_int (PixivArtwork.id self)) true in
  author_name <- escape (PartialUser.name (PixivArtwork.author self)) ;;
  let embed :=
    Embed.add_field embed "Author"
      ("[" ++ author_name ++ "](" ++ PartialUser.url (PixivArtwork.author self) ++ ")")
      true in
  let embed :=
    Embed.add_field embed "Size"
      (py_str (PixivArtwork.width self) ++ " x " ++ py_str (PixivArtwork.height self))
      true in
  let embed :=
    Embed.add_field embed "Pages count" (py_str (PixivArtwork.pages_count self)) true in
  let embed := Embed.add_field embed "Artwork link" (PixivArtwork.url self) false in
  ret embed.

End Methods.

(** [embed] with another timestamp. *)
Definition restamp (stamp : datetime) (embed : Embed.t) : Embed.t :=
  {| Embed.title := Embed.title embed; Embed.url := Embed.url embed;
     Embed.colour := Embed.colour embed; Embed.timestamp := Some stamp;
     Embed.image := Embed.image embed; Embed.fields := Embed.fields embed |}.

(** The claim "the payload is a function of the Artwork and the
    attachment name alone", read on one Artwork and one name: whatever the
    time zone of the process, rendering gives the same outcome. *)
Definition zone_blind {rt : PyRuntime} {links : LinkTemplates}
    (self : PixivArtwork.t) (attachment_name : string) : Prop :=
  forall here there : LocalZone,
    create_embed (zone := here) self attachment_name
    = create_embed (zone := there) self attachment_name.

(** A zone at a fixed offset from UTC (in seconds), without daylight
    saving, on the dates the platform converts. *)
Definition fixed_zone (offset : Z) : LocalZone :=
  {| astimezone := fun value =>
       Ok {| year := year value; month := month value; day := day value;
             hour := hour value; minute := minute value; second := second value;
             microsecond := microsecond value; utcoffset := Some offset |} |}.

End Localized.

(* ===================================================================== *)
(** ** The causes of absence *)
(* ===================================================================== *)

(** The three causes the specification lists for [get] returning [None],
    read on the provider's answer: the request raises a network or timeout
    error, the status is not 200, the [error] flag of the body of a 200
    response is truthy. *)
Inductive listed_cause : result response -> Prop :=
| listed_transport (e : exn) :
    e = ClientError \/ e = TimeoutError -> listed_cause (Err e)
| listed_status (r : response) :
    status r <> 200 -> listed_cause (Ok r)
| listed_error_flag (r : response) (data flag : pyval) :
    status r = 200 -> json r = Ok data ->
    py_getitem data "error" = Ok flag -> py_bool flag = true -> listed_cause (Ok r).

(** The causes the code has: the three above, and a 200 response on which
    awaiting [response.json()] raises an [aiohttp.ClientError] (a body not
    served as JSON, a connection lost while reading) or times out. *)
Inductive none_cause : result response -> Prop :=
| cause_request (e : exn) :
    e = ClientError \/ e = TimeoutError -> none_cause (Err e)
| cause_status (r : response) :
    status r <> 200 -> none_cause (Ok r)
| cause_body (r : response) (e : exn) :
    status r = 200 -> json r = Err e ->
    e = ClientError \/ e = TimeoutError -> none_cause (Ok r)
| cause_error_flag (r : response) (data flag : pyval) :
    status r = 200 -> json r = Ok data ->
    py_getitem data "error" = Ok flag -> py_bool flag = true -> none_cause (Ok r).

(** Text made of ASCII characters only; on such text the class [\d] of a
    [str] pattern is the class of the ten ASCII digits. *)
Fixpoint ascii_text (text : string) : bool :=
  match text with
  | EmptyString => true
  | String c rest => (N_of_ascii c <? 128)%N && ascii_text rest
  end.

Module ReferenceHost.

(** [shlex.split] on words separated by blanks, without quotes, escapes
    or comments. *)
Fixpoint words_from (current : string) (text : string) : list string :=
  match text with
  | EmptyString => match current with EmptyString => [] | _ => [current] end
  | String c rest =>
      if Ascii.eqb c " "%char
      then match current with
           | EmptyString => words_from EmptyString rest
           | _ => current :: words_from EmptyString rest
           end
      else words_from (current ++ String c EmptyString) rest
  end.

Definition words (text : string) : option (list string) := Some (words_from "" text).

(** [str.lower] on ASCII text. *)
Definition lower_char (c : ascii) : ascii :=
  let n := N_of_ascii c in
  if ((65 <=? n) && (n <=? 90))%N then ascii_of_N (n + 32) else c.

Fixpoint lower_ascii (text : string) : string :=
  match text with
  | EmptyString => EmptyString
  | String c rest => String (lower_char c) (lower_ascii rest)
  end.

Definition os : Host := {| shlex_split := words; lower := lower_ascii |}.

(** A host around a world of the artwork module: the image server answers
    [image], the platform answers [posted]. *)
Definition host_of (w : world) (image : result download) (posted : result Z) : host :=
  {| core_world := w; image_server := fun _ => image; platform := fun _ _ => posted;
     downloads := []; posts := [] |}.

(** The Artwork [PixivArtwork(sunset_nested)] is: two tag objects. *)
Definition nested_artwork : PixivArtwork.t :=
  {| PixivArtwork.id := 123;
     PixivArtwork.title := VStr "Sunset";
     PixivArtwork.author := PartialUser.mk (VInt 5) (VStr "Ann");
     PixivArtwork.nsfw := false;
     PixivArtwork.created_at := mk_datetime 2023 1 1 0 0 0 0 None;
     PixivArtwork.tags :=
       PixivArtwork.TagObjects
         [PixivArtworkTag.mk (VStr "calm") None;
          PixivArtworkTag.mk (VStr "sora") (Some (VStr "sky"))];
     PixivArtwork.width := VInt 800;
     PixivArtwork.height := VInt 600;
     PixivArtwork.pages_count := VInt 1;
     PixivArtwork.image_urls := VDict [("regular", VStr "http://x/img.png")] |}.

(** A provider that serves the nested form of the example, and an
    operator who will type [lines]. *)
Definition serving (lines : list string) : world :=
  Reference.world_of (Ok (Reference.ok_response Reference.sunset_nested)) lines.

(** The rendering of [nested_artwork] starts with its tags. *)
Definition tags_come_first : Prop :=
  exists embed,
    PixivArtwork.create_embed (rt := Reference.runtime) (links := Reference.templates)
      nested_artwork "image.png" = Ok embed
    /\ hd_error (Embed.fields embed)
       = Some {| Embed.name := "Tags";
                 Embed.value :=
                   "[calm](https://www.pixiv.net/en/tags/calm/artworks), [sky](https://www.pixiv.net/en/tags/sora/artworks)";
                 Embed.inline := false |}.

End ReferenceHost.

(* ===================================================================== *)
(** ** Properties *)
(* ===================================================================== *)

(** One step of either monad, without unfolding the operations bound. *)
Ltac monad_step :=
  cbn [bind ret Monad_io Monad_result io_bind result_bind lift].

Example sunset_constructs :
  PixivArtwork.__init__ (rt := Reference.runtime) Reference.sunset
  = Ok Reference.sunset_artwork.
Proof. vm_compute. reflexivity. Qed.

Section ImageUrl.

Import PixivArtwork.

(** The three shapes [get_image_url] can take, by what ["regular"] holds. *)
Lemma get_image_url_cases (self : PixivArtwork.t) :
  get_image_url self =
  match py_getitem (image_urls self) "regular" with
  | Err e => Throw e
  | Ok VNone => Print (manual_notice self) (Input "image URL>" typed_line)
  | Ok v => Ret v
  end.
Proof.
  unfold get_image_url.
  destruct (py_getitem (image_urls self) "regular") as [v | e]; [| reflexivity].
  destruct v; reflexivity.
Qed.

(** Only a null under ["regular"] leads to the prompt. *)
Lemma fallback_only_when_null (self : PixivArtwork.t) :
  asks_operator (get_image_url self) = true <->
  py_getitem (image_urls self) "regular" = Ok VNone.
Proof.
  rewrite get_image_url_cases.
  destruct (py_getitem (image_urls self) "regular") as [v | e].
  - destruct v; cbn [asks_operator]; split; intro H;
      try discriminate H; reflexivity.
  - cbn [asks_operator]; split; intro H; discriminate H.
Qed.

(** C1. When [image_urls] maps ["regular"] to a string, [get_image_url]
    is the coroutine that returns that very string: it performs no effect,
    so running it leaves the world (terminal and operator input included)
    as it was.  When [image_urls] maps ["regular"] to [None], it reaches
    the operator prompt, and with an operator who types [line] it returns
    exactly [line], having printed the notice and the prompt and consumed
    that one line. *)
Theorem get_image_url_regular_or_manual (self : PixivArtwork.t) (v : pyval) :
  py_getitem (image_urls self) "regular" = Ok v ->
  (forall s, v = VStr s ->
     get_image_url self = Ret (VStr s)
     /\ asks_operator (get_image_url self) = false
     /\ forall w, run (get_image_url self) w = (Ok (VStr s), w))
  /\ (v = VNone ->
      asks_operator (get_image_url self) = true
      /\ forall w line rest,
           stdin w = line :: rest ->
           run (get_image_url self) w =
           (Ok (VStr line),
            {| provider := provider w;
               stdin := rest;
               stdout := (stdout w ++ [manual_notice self ++ newline]) ++ ["image URL>"];
               requests := requests w |})).
Proof.
  intros Hv. rewrite get_image_url_cases, Hv. split.
  - intros s ->. repeat split.
  - intros ->. split; [reflexivity |].
    intros w line rest Hin. cbn [run]. unfold read_line, write. cbn [stdin].
    rewrite Hin. reflexivity.
Qed.

(** C10. When [image_urls] is a mapping without any ["regular"] key,
    [get_image_url] raises [KeyError] on that key: it returns no URL, does
    not reach the operator prompt and leaves the world untouched.  On any
    Artwork, the prompt is reached only if ["regular"] is present and
    null. *)
Theorem get_image_url_missing_key (self : PixivArtwork.t) (entries : list (string * pyval)) :
  image_urls self = VDict entries ->
  lookup "regular" entries = None ->
  get_image_url self = Throw (KeyError "regular")
  /\ asks_operator (get_image_url self) = false
  /\ (forall w, run (get_image_url self) w = (Err (KeyError "regular"), w))
  /\ (forall other : PixivArtwork.t,
        asks_operator (get_image_url other) = true ->
        exists present, image_urls other = VDict present
                        /\ lookup "regular" present = Some VNone).
Proof.
  intros Hd Hl.
  assert (E : get_image_url self = Throw (KeyError "regular")).
  { rewrite get_image_url_cases. unfold py_getitem. rewrite Hd, Hl. reflexivity. }
  rewrite E. repeat split.
  intros other Hask. apply fallback_only_when_null in Hask.
  unfold py_getitem in Hask.
  destruct (image_urls other) as [| | | | | |present]; try discriminate Hask.
  exists present. split; [reflexivity |].
  destruct (lookup "regular" present) as [x |]; [| discriminate Hask].
  injection Hask as ->. reflexivity.
Qed.

End ImageUrl.

(* --------------------------------------------------------------------- *)
(** *** Which exceptions the construction can raise *)
(* --------------------------------------------------------------------- *)

Lemma raises_only_bind {A B : Type} (P : exn -> Prop) (r : result A) (k : A -> result B) :
  raises_only P r -> (forall a, raises_only P (k a)) ->
  raises_only P (bind r k).
Proof.
  intros Hr Hk. destruct r as [a | e]; cbn; [apply Hk | exact Hr].
Qed.

Lemma raises_only_traverse {A B : Type} (P : exn -> Prop) (f : A -> result B) (xs : list A) :
  (forall x, raises_only P (f x)) -> raises_only P (traverse f xs).
Proof.
  intros Hf. induction xs as [| x rest IH]; cbn; [exact I |].
  specialize (Hf x). destruct (f x) as [y | e]; [| exact Hf].
  destruct (traverse f rest) as [ys | e]; [exact I | exact IH].
Qed.

Lemma getitem_escapes (obj : pyval) (key : string) :
  raises_only escapes (py_getitem obj key).
Proof.
  unfold py_getitem.
  destruct obj; try reflexivity.
  destruct (lookup key entries); [exact I | reflexivity].
Qed.

Lemma iter_escapes (v : pyval) : raises_only escapes (py_iter v).
Proof. destruct v; cbn; first [exact I | reflexivity]. Qed.

Section Escapes.
Context {rt : PyRuntime}.

Lemma int_escapes (v : pyval) : raises_only escapes (py_int v).
Proof.
  destruct v; cbn; try first [exact I | reflexivity].
  - unfold int_of_float. destruct (Prim2SF f); cbn; first [exact I | reflexivity].
  - destruct (int_of_str s); [exact I | reflexivity].
Qed.

Lemma fromisoformat_escapes (v : pyval) : raises_only escapes (py_fromisoformat v).
Proof.
  destruct v; cbn; try reflexivity.
  destruct (fromisoformat s); [exact I | reflexivity].
Qed.

Lemma tag_init_escapes (d : pyval) : raises_only escapes (PixivArtworkTag.__init__ d).
Proof.
  unfold PixivArtworkTag.__init__.
  apply raises_only_bind; [apply getitem_escapes | intros; exact I].
Qed.

Lemma init_tags_escapes (v : pyval) : raises_only escapes (PixivArtwork.init_tags v).
Proof.
  unfold PixivArtwork.init_tags. destruct (is_dict v); [| exact I].
  apply raises_only_bind; [apply getitem_escapes | intros nested].
  apply raises_only_bind; [apply iter_escapes | intros items].
  apply raises_only_bind; [| intros; exact I].
  apply raises_only_traverse, tag_init_escapes.
Qed.

(** No exception of the construction belongs to a suppressed class. *)
Lemma init_escapes (data : pyval) : raises_only escapes (PixivArtwork.__init__ data).
Proof.
  unfold PixivArtwork.__init__.
  repeat (apply raises_only_bind;
          [first [apply getitem_escapes | apply int_escapes
                 | apply fromisoformat_escapes | apply init_tags_escapes]
          | intros ?]).
  exact I.
Qed.

End Escapes.

(* --------------------------------------------------------------------- *)
(** *** The fetcher *)
(* --------------------------------------------------------------------- *)

Section Fetcher.
Context {rt : PyRuntime}.

Import PixivArtwork.

Lemma read_envelope_escapes (data : pyval) : raises_only escapes (read_envelope data).
Proof.
  unfold read_envelope.
  apply raises_only_bind; [apply getitem_escapes | intros flag].
  destruct (py_bool flag); [exact I |].
  apply raises_only_bind; [apply getitem_escapes | intros body].
  apply raises_only_bind; [apply init_escapes | intros; exact I].
Qed.

(** The part of [get] after the body has been read, as a coroutine. *)
Lemma envelope_coroutine (data : pyval) :
  (error <- lift (py_getitem data "error") ;;
   if py_bool error then ret None
   else
     body <- lift (py_getitem data "body") ;;
     artwork <- lift (__init__ body) ;;
     ret (Some artwork)) = lift (read_envelope data).
Proof.
  unfold read_envelope.
  destruct (py_getitem data "error") as [flag | e]; monad_step; [| reflexivity].
  destruct (py_bool flag); monad_step; [reflexivity |].
  destruct (py_getitem data "body") as [body | e]; monad_step; [| reflexivity].
  destruct (__init__ body) as [artwork | e]; reflexivity.
Qed.

(** [get] sends one request and returns what [get_outcome] says. *)
Lemma run_get (artwork_id : Z) (w : world) :
  run (get artwork_id) w =
  (get_outcome (provider w (illust_url artwork_id)), after_request artwork_id w).
Proof.
  unfold get, get_body, session_get, after_request, illust_url, send, get_outcome.
  cbn [bind Monad_io io_bind suppress run snd fst provider].
  unfold send. cbn [snd fst provider].
  destruct (provider w _) as [r | e]; cbn [lift io_bind suppress run].
  - destruct (negb (status r =? 200)%Z); cbn [lift io_bind suppress run ret Monad_io];
      [reflexivity |].
    destruct (json r) as [data | e]; cbn [lift io_bind suppress run].
    + change (io_bind (lift (py_getitem data "error")) _)
        with (error <- lift (py_getitem data "error") ;;
              if py_bool error then ret None
              else
                body <- lift (py_getitem data "body") ;;
                artwork <- lift (__init__ body) ;;
                ret (Some artwork)).
      rewrite envelope_coroutine.
      pose proof (read_envelope_escapes data) as He.
      destruct (read_envelope data) as [o | e]; cbn [lift io_bind suppress run];
        [reflexivity |].
      cbn in He. unfold escapes in He. rewrite He. reflexivity.
    + destruct (suppressed e); reflexivity.
  - destruct (suppressed e); reflexivity.
Qed.

Lemma read_envelope_none (data : pyval) :
  read_envelope data = Ok None <->
  exists flag, py_getitem data "error" = Ok flag /\ py_bool flag = true.
Proof.
  unfold read_envelope. split.
  - destruct (py_getitem data "error") as [flag | e]; monad_step; [| discriminate].
    destruct (py_bool flag) eqn:Hflag; monad_step.
    + intros _. exists flag. split; [reflexivity | exact Hflag].
    + destruct (py_getitem data "body") as [body | e]; monad_step; [| discriminate].
      destruct (__init__ body); monad_step; discriminate.
  - intros (flag & -> & Hflag). monad_step. rewrite Hflag. reflexivity.
Qed.

(** [get] returns [None] exactly on the answers of [absence]. *)
Lemma get_none_absence (artwork_id : Z) (w : world) :
  (fst (run (get artwork_id) w) = Ok None <->
   absence (provider w (illust_url artwork_id)))
  /\ (absence (provider w (illust_url artwork_id)) ->
      run (get artwork_id) w = (Ok None, after_request artwork_id w)).
Proof.
  rewrite run_get. cbn [fst].
  assert (Hiff : get_outcome (provider w (illust_url artwork_id)) = Ok None <->
                 absence (provider w (illust_url artwork_id))).
  { generalize (provider w (illust_url artwork_id)) as answer.
    intros answer. unfold get_outcome. split.
    - destruct answer as [r | e].
      + destruct (status r =? 200)%Z eqn:Hst; cbn [negb].
        * apply Z.eqb_eq in Hst.
          destruct (json r) as [data | e] eqn:Hj.
          -- intros H. apply read_envelope_none in H as (flag & Hflag & Htrue).
             eapply error_flag; eassumption.
          -- destruct (suppressed e) eqn:Hs; [| discriminate].
             intros _. eapply transport_error_in_body; eassumption.
        * apply Z.eqb_neq in Hst. intros _. apply status_not_200, Hst.
      + destruct (suppressed e) eqn:Hs; [| discriminate].
        intros _. apply transport_error, Hs.
    - intros Habs.
      destruct Habs as [e Hs | r e Hst Hj Hs | r Hst | r data flag Hst Hj Hflag Htrue].
      + rewrite Hs. reflexivity.
      + rewrite Hst, Hj, Hs. reflexivity.
      + apply Z.eqb_neq in Hst. rewrite Hst. reflexivity.
      + rewrite Hst, Hj. cbn [Z.eqb negb Pos.eqb].
        apply read_envelope_none. exists flag. split; assumption. }
  split; [exact Hiff |].
  intros Habs. apply Hiff in Habs. rewrite Habs. reflexivity.
Qed.

Lemma suppressed_classes (e : exn) :
  suppressed e = true <-> e = ClientError \/ e = TimeoutError.
Proof.
  split.
  - destruct e; cbn; intros H; try discriminate H; [left | right]; reflexivity.
  - intros [-> | ->]; reflexivity.
Qed.

Lemma absence_none_cause (answer : result response) :
  absence answer <-> none_cause answer.
Proof.
  split.
  - intros [e Hs | r e Hst Hj Hs | r Hst | r data flag Hst Hj Hflag Htrue].
    + apply cause_request, suppressed_classes, Hs.
    + apply (cause_body r e Hst Hj), suppressed_classes, Hs.
    + apply cause_status, Hst.
    + apply (cause_error_flag r data flag); assumption.
  - intros [e He | r Hst | r e Hst Hj He | r data flag Hst Hj Hflag Htrue].
    + apply transport_error, suppressed_classes, He.
    + apply status_not_200, Hst.
    + apply (transport_error_in_body r e Hst Hj), suppressed_classes, He.
    + apply (error_flag r data flag); assumption.
Qed.

(** C2, as the code has it.  For every artwork id and every world, [get]
    returns [None] exactly in four cases: the request raises
    [aiohttp.ClientError] or [asyncio.TimeoutError]; the status is not 200;
    on a 200 response, awaiting [response.json()] raises one of these two
    classes; the [error] flag of the parsed body is truthy.  The three
    causes the specification lists are among them, and in each of the four
    the outcome is the same: [None], after the single request. *)
Theorem get_none_iff (artwork_id : Z) (w : world) :
  (fst (run (get artwork_id) w) = Ok None <->
   none_cause (provider w (illust_url artwork_id)))
  /\ (none_cause (provider w (illust_url artwork_id)) ->
      run (get artwork_id) w = (Ok None, after_request artwork_id w))
  /\ (listed_cause (provider w (illust_url artwork_id)) ->
      none_cause (provider w (illust_url artwork_id))).
Proof.
  destruct (get_none_absence artwork_id w) as [Hiff Hrun].
  split; [| split].
  - rewrite Hiff. apply absence_none_cause.
  - intros Hcause. apply Hrun, absence_none_cause, Hcause.
  - intros [e He | r Hst | r data flag Hst Hj Hflag Htrue].
    + apply cause_request, He.
    + apply cause_status, Hst.
    + apply (cause_error_flag r data flag); assumption.
Qed.

(** C3. On a 200 response whose [error] flag is falsy, [get] hands the
    [body] sub-document to the construction and returns its Artwork; when
    the construction raises (a missing required field, an unparsable
    timestamp, ...) the same exception leaves [get]: the outcome is a
    failure, never [None], and the exception is of no suppressed class. *)
Theorem get_propagates_malformed_body
    (artwork_id : Z) (w : world) (r : response) (data flag body : pyval) :
  provider w (illust_url artwork_id) = Ok r ->
  status r = 200 ->
  json r = Ok data ->
  py_getitem data "error" = Ok flag ->
  py_bool flag = false ->
  py_getitem data "body" = Ok body ->
  fst (run (get artwork_id) w) =
    match __init__ body with
    | Ok artwork => Ok (Some artwork)
    | Err e => Err e
    end
  /\ (forall e, __init__ body = Err e ->
        fst (run (get artwork_id) w) = Err e
        /\ fst (run (get artwork_id) w) <> Ok None
        /\ suppressed e = false).
Proof.
  intros Hp Hst Hj Herr Hflag Hbody.
  assert (E : fst (run (get artwork_id) w) =
              match __init__ body with
              | Ok artwork => Ok (Some artwork)
              | Err e => Err e
              end).
  { rewrite run_get. cbn [fst]. unfold get_outcome.
    rewrite Hp, Hst, Hj. cbn [Z.eqb negb Pos.eqb].
    unfold read_envelope. rewrite Herr. monad_step. rewrite Hflag, Hbody. monad_step.
    destruct (__init__ body); reflexivity. }
  split; [exact E |].
  intros e He. rewrite E, He. repeat split; [discriminate |].
  pose proof (init_escapes body) as Hesc. rewrite He in Hesc. exact Hesc.
Qed.

End Fetcher.

(** The claim C2 as it is worded fails on a 200 response whose body cannot
    be read as JSON: [response.json()] raises an [aiohttp.ClientError]
    ([ContentTypeError] on a page served as [text/html]), the [with] block
    suppresses it and [get] returns [None], although the request went
    through, the status is 200 and no [error] flag was read. *)
Lemma get_none_unlisted :
  fst (run (PixivArtwork.get (rt := Reference.runtime) 123)
         (Reference.world_of (Ok {| status := 200; json := Err ClientError |}) []))
  = Ok None
  /\ ~ listed_cause (Ok {| status := 200; json := Err ClientError |}).
Proof.
  split; [reflexivity |].
  intros H. inversion H as [e He Heq | r Hst Heq | r data flag Hst Hj Hflag Htrue Heq].
  - subst. cbn in Hst. apply Hst. reflexivity.
  - subst. cbn in Hj. discriminate Hj.
Qed.

(** A 404 answer yields absence, not an exception. *)
Example get_404 :
  run (PixivArtwork.get (rt := Reference.runtime) 123)
      (Reference.world_of (Ok {| status := 404; json := Err ClientError |}) [])
  = (Ok None,
     {| provider := fun _ => Ok {| status := 404; json := Err ClientError |};
        stdin := []; stdout := [];
        requests := ["https://www.pixiv.net/ajax/illust/123"] |}).
Proof. reflexivity. Qed.

(** The specification's example: a 200 response without [title]. *)
Lemma get_propagates_malformed_body_witness :
  fst (run (PixivArtwork.get (rt := Reference.runtime) 123)
           (Reference.world_of
              (Ok (Reference.ok_response (Reference.without_field "title" Reference.sunset)))
              []))
  = Err (KeyError "title").
Proof.
  apply (get_propagates_malformed_body (rt := Reference.runtime) 123
           (Reference.world_of
              (Ok (Reference.ok_response (Reference.without_field "title" Reference.sunset)))
              [])
           (Reference.ok_response (Reference.without_field "title" Reference.sunset))
           (VDict [("error", VBool false);
                   ("body", Reference.without_field "title" Reference.sunset)])
           (VBool false)
           (Reference.without_field "title" Reference.sunset)
           eq_refl eq_refl eq_refl eq_refl eq_refl eq_refl).
  vm_compute. reflexivity.
Defined.

(* --------------------------------------------------------------------- *)
(** *** Construction *)
(* --------------------------------------------------------------------- *)

Section Construction.
Context {rt : PyRuntime}.

Import PixivArtwork.

(** What a successful construction read, and where each slot comes from. *)
Lemma init_ok_inv (data : pyval) (self : PixivArtwork.t) :
  __init__ data = Ok self ->
  exists id_value x_restrict create_date tags_value,
    py_getitem data "id" = Ok id_value
    /\ py_int id_value = Ok (id self)
    /\ py_getitem data "title" = Ok (title self)
    /\ py_getitem data "userId" = Ok (PartialUser.id (author self))
    /\ py_getitem data "userName" = Ok (PartialUser.name (author self))
    /\ py_getitem data "xRestrict" = Ok x_restrict
    /\ nsfw self = py_bool x_restrict
    /\ py_getitem data "createDate" = Ok create_date
    /\ py_fromisoformat create_date = Ok (created_at self)
    /\ py_getitem data "tags" = Ok tags_value
    /\ init_tags tags_value = Ok (tags self)
    /\ py_getitem data "width" = Ok (width self)
    /\ py_getitem data "height" = Ok (height self)
    /\ py_getitem data "pageCount" = Ok (pages_count self)
    /\ py_getitem data "urls" = Ok (image_urls self).
Proof.
  unfold __init__. intros H. cbn [bind ret Monad_result] in H.
  repeat match type of H with
         | result_bind ?r _ = _ =>
             let E := fresh "E" in
             destruct r eqn:E;
             cbn [bind ret Monad_result result_bind] in H; [| discriminate H]
         end.
  injection H as <-. cbn.
  repeat match goal with
         | |- exists _, _ => eexists
         end.
  repeat split; first [eassumption | reflexivity].
Qed.

Lemma traverse_Forall2 {A B : Type} (f : A -> result B) (xs : list A) (ys : list B) :
  traverse f xs = Ok ys -> Forall2 (fun x y => f x = Ok y) xs ys.
Proof.
  revert ys. induction xs as [| x rest IH]; intros ys H; cbn in H.
  - injection H as <-. constructor.
  - destruct (f x) as [y | e] eqn:Hx; [| discriminate H].
    destruct (traverse f rest) as [ys' | e]; [| discriminate H].
    injection H as <-. constructor; [exact Hx | apply IH; reflexivity].
Qed.

(** The two branches of the [tags] field. *)
Lemma init_tags_inv (tags_value : pyval) (stored : tag_list) :
  init_tags tags_value = Ok stored ->
  match tags_value with
  | VDict entries =>
      exists nested items objs,
        lookup "tags" entries = Some nested
        /\ py_iter nested = Ok items
        /\ (forall elements, nested = VList elements -> items = elements)
        /\ Forall2 (fun d tag => PixivArtworkTag.__init__ d = Ok tag) items objs
        /\ stored = TagObjects objs
  | other => stored = AsGiven other
  end.
Proof.
  unfold init_tags.
  destruct tags_value; cbn [is_dict ret Monad_result];
    try (intros H; injection H as <-; reflexivity).
  cbn [bind Monad_result py_getitem].
  destruct (lookup "tags" entries) as [nested |]; cbn [result_bind]; [| discriminate].
  destruct (py_iter nested) as [items | e] eqn:Hit; cbn [result_bind]; [| discriminate].
  destruct (traverse PixivArtworkTag.__init__ items) as [objs | e] eqn:Htr;
    cbn [result_bind]; [| discriminate].
  intros H. injection H as <-.
  exists nested, items, objs.
  split; [reflexivity |]. split; [exact Hit |].
  split; [| split; [| reflexivity]].
  - intros elements ->. cbn in Hit. injection Hit as <-. reflexivity.
  - apply traverse_Forall2, Htr.
Qed.

(** C5. In every document the construction accepts, a [tags] value that
    is a dict has a ["tags"] entry, and the tag list is made of one
    [PixivArtworkTag] per element of that nested list, each built from its
    element, in order; a [tags] value of any other kind is stored
    unchanged as the tag list. *)
Theorem tags_polymorphic (data : pyval) (self : PixivArtwork.t) (tags_value : pyval) :
  __init__ data = Ok self ->
  py_getitem data "tags" = Ok tags_value ->
  match tags_value with
  | VDict entries =>
      exists nested items objs,
        lookup "tags" entries = Some nested
        /\ py_iter nested = Ok items
        /\ (forall elements, nested = VList elements -> items = elements)
        /\ Forall2 (fun d tag => PixivArtworkTag.__init__ d = Ok tag) items objs
        /\ tags self = TagObjects objs
  | other => tags self = AsGiven other
  end.
Proof.
  intros Hinit Htags.
  apply init_ok_inv in Hinit
    as (id_value & x_restrict & create_date & tags_value' & H).
  decompose [and] H. clear H.
  assert (tags_value' = tags_value) as -> by congruence.
  match goal with
  | Ht : init_tags tags_value = Ok (tags self) |- _ => apply init_tags_inv in Ht
  end.
  assumption.
Qed.

(** C8. In every document the construction accepts, [nsfw] is the truth
    value of the [xRestrict] flag; for a flag that is a number (an [int], a
    [bool], a [float]) this means: [nsfw] is true exactly when the flag is
    not zero. *)
Theorem nsfw_iff_restricted (data : pyval) (self : PixivArtwork.t) (flag : pyval) :
  __init__ data = Ok self ->
  py_getitem data "xRestrict" = Ok flag ->
  nsfw self = py_bool flag
  /\ (forall z, flag = VInt z -> (nsfw self = true <-> z <> 0))
  /\ (forall b, flag = VBool b -> (nsfw self = true <-> (if b then 1 else 0) <> 0))
  /\ (forall f, flag = VFloat f -> (nsfw self = true <-> PrimFloat.eqb f 0%float = false)).
Proof.
  intros Hinit Hflag.
  apply init_ok_inv in Hinit
    as (id_value & x_restrict & create_date & tags_value & H).
  decompose [and] H. clear H.
  assert (x_restrict = flag) as -> by congruence.
  match goal with
  | Hn : nsfw self = py_bool flag |- _ => rewrite Hn
  end.
  split; [reflexivity |]. repeat split.
  - subst flag. cbn [py_bool]. intros Hz Hzero. subst z. discriminate Hz.
  - subst flag. cbn [py_bool]. intros Hz. destruct (Z.eqb_spec z 0); [contradiction | reflexivity].
  - subst flag. cbn [py_bool]. destruct b; [intros _; discriminate | discriminate].
  - subst flag. cbn [py_bool]. destruct b; [reflexivity | intros Hb; contradiction Hb; reflexivity].
  - subst flag. cbn [py_bool]. destruct (PrimFloat.eqb f 0); [discriminate | reflexivity].
  - subst flag. cbn [py_bool]. intros ->. reflexivity.
Qed.

(** C7. With a runtime whose [int] reads ["123"] as 123 and whose
    [fromisoformat] accepts ["2023-01-01T00:00:00"], the document of the
    specification's example constructs an Artwork with [nsfw = False], with
    the tag list [["calm", "sky"]], and with the link
    [https://www.pixiv.net/en/artworks/123]. *)
Theorem sunset_example (stamp : datetime) :
  int_of_str "123" = Some 123 ->
  fromisoformat "2023-01-01T00:00:00" = Some stamp ->
  exists self,
    __init__ Reference.sunset = Ok self
    /\ nsfw self = false
    /\ tags self = AsGiven (VList [VStr "calm"; VStr "sky"])
    /\ url self = "https://www.pixiv.net/en/artworks/123".
Proof.
  intros Hint Hstamp.
  unfold __init__, Reference.sunset.
  cbn [py_getitem lookup String.eqb Ascii.eqb Bool.eqb bind ret Monad_result
       result_bind py_int py_fromisoformat].
  rewrite Hint, Hstamp. cbn [result_bind init_tags is_dict ret Monad_result].
  eexists. split; [reflexivity |]. repeat split.
Qed.

End Construction.

Section Outcomes.
Context {rt : PyRuntime}.

Import PixivArtwork.

(** Reading the fields in order and stopping at the first failing step is
    what [__init__] does. *)
Lemma init_first_failure (data : pyval) :
  match first_failure data required_fields with
  | Some e => __init__ data = Err e
  | None => exists self, __init__ data = Ok self
  end.
Proof.
  unfold required_fields, __init__.
  cbn [first_failure bind ret Monad_result].
  repeat match goal with
         | |- context [py_getitem data ?key] =>
             lazymatch goal with
             | |- context [match py_getitem data key with Ok _ => _ | Err _ => _ end] =>
                 destruct (py_getitem data key) as [? | ?];
                 cbn [result_bind field_check String.eqb Ascii.eqb Bool.eqb
                      bind ret Monad_result];
                 [| reflexivity]
             end
         | |- context [match result_bind ?r _ with Ok _ => _ | Err _ => _ end] =>
             destruct r as [? | ?]; cbn [result_bind]; [| reflexivity]
         end.
  eexists. reflexivity.
Qed.

Lemma first_failure_app (data : pyval) (before rest : list string) :
  first_failure data (before ++ rest)%list =
  match first_failure data before with
  | Some e => Some e
  | None => first_failure data rest
  end.
Proof.
  induction before as [| key before IH]; cbn [first_failure app]; [reflexivity |].
  destruct (py_getitem data key) as [v | e]; [| reflexivity].
  destruct (field_check key v); [exact IH | reflexivity].
Qed.

Lemma first_failure_none (data : pyval) (keys : list string) :
  first_failure data keys = None <->
  forall key, In key keys ->
    exists v, py_getitem data key = Ok v /\ field_check key v = Ok tt.
Proof.
  induction keys as [| key keys IH]; cbn [first_failure In].
  - split; [intros _ key [] | reflexivity].
  - split.
    + destruct (py_getitem data key) as [v | e] eqn:Hk; [| discriminate].
      destruct (field_check key v) as [[] | e] eqn:Hc; [| discriminate].
      intros Hrest other [<- | Hin].
      * exists v. split; assumption.
      * apply IH; assumption.
    + intros Hall.
      destruct (Hall key (or_introl eq_refl)) as (v & -> & ->).
      apply IH. intros other Hin. apply Hall. right. exact Hin.
Qed.

(** A step that fails after a clean prefix decides the outcome. *)
Lemma init_fails_at (data : pyval) (before after : list string) (key : string) (e : exn) :
  required_fields = (before ++ key :: after)%list ->
  first_failure data before = None ->
  first_failure data [key] = Some e ->
  __init__ data = Err e.
Proof.
  intros Hsplit Hbefore Hkey.
  pose proof (init_first_failure data) as H.
  rewrite Hsplit, first_failure_app, Hbefore in H.
  change (key :: after) with ([key] ++ after)%list in H.
  rewrite first_failure_app, Hkey in H. exact H.
Qed.

(** C6, as the code has it.  The construction reads the required fields
    in source order and fails with the exception of the first step that
    fails.  Hence: it fails whenever a required field is absent, with the
    missing-field error [KeyError] of that field when no earlier step
    fails; it fails whenever [createDate] is a string that is not a
    well-formed timestamp, with the parse error [ValueError] when no
    earlier step fails; and it yields an Artwork, each slot filled from its
    field, exactly when every field is present and passes its step ([int]
    accepts [id], [createDate] is a well-formed timestamp string, [tags] is
    no dict or a dict whose ["tags"] entry builds tags). *)
Theorem init_outcomes (data : pyval) :
  match first_failure data required_fields with
  | Some e => __init__ data = Err e
  | None => exists self, __init__ data = Ok self
  end
  /\ (forall key, In key required_fields ->
        py_getitem data key = Err (KeyError key) ->
        (exists e, __init__ data = Err e)
        /\ (forall before after,
              required_fields = (before ++ key :: after)%list ->
              first_failure data before = None ->
              __init__ data = Err (KeyError key)))
  /\ (forall s, py_getitem data "createDate" = Ok (VStr s) ->
        fromisoformat s = None ->
        (exists e, __init__ data = Err e)
        /\ (first_failure data ["id"; "title"; "userId"; "userName"; "xRestrict"] = None ->
            __init__ data = Err ValueError))
  /\ ((exists self, __init__ data = Ok self) <->
      (forall key, In key required_fields ->
         exists v, py_getitem data key = Ok v /\ field_check key v = Ok tt))
  /\ (forall self, __init__ data = Ok self ->
        py_getitem data "title" = Ok (title self)
        /\ py_getitem data "userId" = Ok (PartialUser.id (author self))
        /\ py_getitem data "userName" = Ok (PartialUser.name (author self))
        /\ py_getitem data "width" = Ok (width self)
        /\ py_getitem data "height" = Ok (height self)
        /\ py_getitem data "pageCount" = Ok (pages_count self)
        /\ py_getitem data "urls" = Ok (image_urls self)).
Proof.
  pose proof (init_first_failure data) as Hff.
  assert (Hsome : forall e0, first_failure data required_fields = Some e0 ->
                             exists e, __init__ data = Err e).
  { intros e0 He0. rewrite He0 in Hff. exists e0. exact Hff. }
  assert (Hfail : (forall key, In key required_fields ->
                     exists v, py_getitem data key = Ok v /\ field_check key v = Ok tt) ->
                  forall e, __init__ data <> Err e).
  { intros Hall e He. apply first_failure_none in Hall.
    rewrite Hall in Hff. destruct Hff as [self Hself]. congruence. }
  split; [exact Hff |]. split; [| split; [| split]].
  - intros key Hin Habsent. split.
    + destruct (first_failure data required_fields) as [e0 |] eqn:E.
      * eapply Hsome; reflexivity.
      * exfalso. rewrite first_failure_none in E.
        destruct (E key Hin) as (v & Hv & _). congruence.
    + intros before after Hsplit Hbefore.
      apply (init_fails_at data before after key); try assumption.
      cbn [first_failure]. rewrite Habsent. reflexivity.
  - intros s Hcd Hparse.
    assert (Hstep : first_failure data ["createDate"] = Some ValueError).
    { cbn [first_failure]. rewrite Hcd. unfold field_check.
      cbn [String.eqb Ascii.eqb Bool.eqb py_fromisoformat].
      rewrite Hparse. reflexivity. }
    split.
    + destruct (first_failure data required_fields) as [e0 |] eqn:E.
      * eapply Hsome; reflexivity.
      * exfalso. rewrite first_failure_none in E.
        destruct (E "createDate") as (v & Hv & Hc).
        { unfold required_fields. cbn [In]. tauto. }
        cbn [first_failure] in Hstep. rewrite Hv, Hc in Hstep. discriminate Hstep.
    + intros Hbefore.
      apply (init_fails_at data ["id"; "title"; "userId"; "userName"; "xRestrict"]
               ["tags"; "width"; "height"; "pageCount"; "urls"] "createDate");
        [reflexivity | exact Hbefore | exact Hstep].
  - split.
    + intros [self Hself]. apply first_failure_none.
      destruct (first_failure data required_fields); [congruence | reflexivity].
    + intros Hall. apply first_failure_none in Hall. rewrite Hall in Hff. exact Hff.
  - intros self Hself.
    apply init_ok_inv in Hself as (id_value & x_restrict & create_date & tags_value & H).
    decompose [and] H. repeat split; assumption.
Qed.

End Outcomes.

(** The claim C6 as it is worded fails on the example document once its
    [id] is not a number: every required field is present and the
    timestamp is well formed, yet the construction raises. *)
Lemma trichotomy_fails_on_text_id :
  ~ trichotomy (rt := Reference.runtime)
      (Reference.with_field "id" (VStr "abc") Reference.sunset).
Proof.
  intros (_ & _ & Hthird).
  destruct Hthird as [self Hself].
  - intros key Hin. unfold required_fields in Hin. cbn [In] in Hin.
    repeat (destruct Hin as [<- | Hin]; [eexists; reflexivity |]).
    contradiction.
  - exists "2023-01-01T00:00:00", (mk_datetime 2023 1 1 0 0 0 0 None).
    split; reflexivity.
  - vm_compute in Hself. discriminate Hself.
Qed.

(** The construction on that document: [int] refuses the text. *)
Example text_id_raises :
  PixivArtwork.__init__ (rt := Reference.runtime)
    (Reference.with_field "id" (VStr "abc") Reference.sunset) = Err ValueError.
Proof. reflexivity. Qed.

(* --------------------------------------------------------------------- *)
(** *** Rendering *)
(* --------------------------------------------------------------------- *)

Section Rendering.
Context {rt : PyRuntime} {links : LinkTemplates}.

Import PixivArtwork.

(** Whenever [create_embed] returns a payload, its fields are in the fixed
    order, and the tags field is there exactly when the tag list is
    truthy. *)
Lemma create_embed_fields (self : PixivArtwork.t) (attachment_name : string) (embed : Embed.t) :
  create_embed self attachment_name = Ok embed ->
  Embed.field_names embed = expected_fields (tags_truthy (tags self))
  /\ Embed.image embed = Some ("attachment://" ++ attachment_name)
  /\ Embed.url embed = Some (url self).
Proof.
  unfold create_embed. cbn [bind ret Monad_result].
  destruct (tags_truthy (tags self)).
  - cbn [result_bind].
    destruct (tags_iter (tags self)) as [items | e]; cbn [result_bind]; [| discriminate].
    destruct (traverse tag_markup items) as [parts | e]; cbn [result_bind]; [| discriminate].
    destruct (escape (PartialUser.name (author self))) as [name | e];
      cbn [result_bind]; [| discriminate].
    intros H. injection H as <-. repeat split.
  - cbn [result_bind].
    destruct (escape (PartialUser.name (author self))) as [name | e];
      cbn [result_bind]; [| discriminate].
    intros H. injection H as <-. repeat split.
Qed.

(** An Artwork built from the nested form, with a string as author name,
    always renders. *)
Lemma create_embed_tag_objects
    (self : PixivArtwork.t) (objs : list PixivArtworkTag.t) (name attachment_name : string) :
  tags self = TagObjects objs ->
  PartialUser.name (author self) = VStr name ->
  exists embed,
    create_embed self attachment_name = Ok embed
    /\ Embed.field_names embed
       = expected_fields (match objs with [] => false | _ => true end).
Proof.
  intros Htags Hname.
  assert (Hmark : forall l, traverse tag_markup (map TagObject l)
                            = Ok (map (fun tag => "[" ++ PixivArtworkTag.__str__ tag ++ "]("
                                                   ++ PixivArtworkTag.url tag ++ ")") l)).
  { induction l as [| tag l IH]; cbn [map traverse tag_markup]; [reflexivity |].
    rewrite IH. reflexivity. }
  assert (Hsome : exists embed, create_embed self attachment_name = Ok embed).
  { unfold create_embed. rewrite Htags, Hname.
    cbn [bind ret Monad_result tags_truthy tags_iter escape].
    destruct objs as [| tag rest]; cbn [result_bind].
    - eexists. reflexivity.
    - rewrite Hmark. cbn [result_bind]. eexists. reflexivity. }
  destruct Hsome as [embed Hembed]. exists embed. split; [exact Hembed |].
  apply create_embed_fields in Hembed as (Hfields & _).
  rewrite Hfields, Htags. reflexivity.
Qed.

(** A truthy tag list that came as the provider gave it never renders:
    its items have no [url] attribute (or it is not iterable at all). *)
Lemma create_embed_as_given (self : PixivArtwork.t) (v : pyval) (attachment_name : string) :
  tags self = AsGiven v ->
  py_bool v = true ->
  create_embed self attachment_name = Err AttributeError
  \/ create_embed self attachment_name = Err TypeError.
Proof.
  intros Htags Htruthy.
  unfold create_embed. rewrite Htags.
  cbn [bind ret Monad_result tags_truthy tags_iter]. rewrite Htruthy.
  destruct v as [| b | z | f | s | items | entries]; cbn [py_iter result_bind];
    try (right; reflexivity); try discriminate Htruthy.
  - destruct s as [| c rest]; [discriminate Htruthy |]. left. reflexivity.
  - destruct items as [| item rest]; [discriminate Htruthy |]. left. reflexivity.
  - destruct entries as [| entry rest]; [discriminate Htruthy |]. left. reflexivity.
Qed.

(** C4, at the failing input.  The Artwork of the specification's own
    example carries the tag list [["calm", "sky"]]; rendering it raises
    [AttributeError] at the first tag, whatever the runtime and the link
    templates, instead of producing a payload with a tags field. *)
Theorem create_embed_plain_tags_raise :
  create_embed Reference.sunset_artwork "image.png" = Err AttributeError.
Proof. reflexivity. Qed.

End Rendering.

(* --------------------------------------------------------------------- *)
(** *** The properties on concrete inputs *)
(* --------------------------------------------------------------------- *)

(** The example Artwork has a regular URL: it comes back as it is. *)
Lemma get_image_url_regular_or_manual_witness :
  PixivArtwork.get_image_url Reference.sunset_artwork = Ret (VStr "http://x/img.png")
  /\ asks_operator (PixivArtwork.get_image_url Reference.sunset_artwork) = false.
Proof.
  destruct (get_image_url_regular_or_manual Reference.sunset_artwork
              (VStr "http://x/img.png") eq_refl) as [Hregular _].
  destruct (Hregular "http://x/img.png" eq_refl) as (Hret & Hsilent & _).
  split; [exact Hret | exact Hsilent].
Defined.

(** The same Artwork with a null regular URL: the operator's line comes
    back. *)
Example get_image_url_manual :
  run (PixivArtwork.get_image_url
         (Reference.with_image_urls (VDict [("regular", VNone)])
            Reference.sunset_artwork))
      {| provider := fun _ => Err ClientError;
         stdin := ["http://y/manual.png"; "quit"]; stdout := []; requests := [] |}
  = (Ok (VStr "http://y/manual.png"),
     {| provider := fun _ => Err ClientError;
        stdin := ["quit"];
        stdout := ["Cannot fetch image URL for artwork 123, please enter it manually."
                     ++ newline;
                   "image URL>"];
        requests := [] |}).
Proof. reflexivity. Qed.

(** An Artwork whose [urls] has a thumbnail only. *)
Lemma get_image_url_missing_key_witness :
  PixivArtwork.get_image_url
    (Reference.with_image_urls (VDict [("thumb", VStr "http://x/t.png")])
       Reference.sunset_artwork)
  = Throw (KeyError "regular").
Proof.
  apply (get_image_url_missing_key
           (Reference.with_image_urls (VDict [("thumb", VStr "http://x/t.png")])
              Reference.sunset_artwork)
           [("thumb", VStr "http://x/t.png")] eq_refl eq_refl).
Defined.

(** The nested form of the example: two tag objects, in order. *)
Lemma tags_polymorphic_witness :
  exists self,
    PixivArtwork.__init__ (rt := Reference.runtime) Reference.sunset_nested = Ok self
    /\ PixivArtwork.tags self
       = PixivArtwork.TagObjects
           [PixivArtworkTag.mk (VStr "calm") None;
            PixivArtworkTag.mk (VStr "sora") (Some (VStr "sky"))].
Proof.
  destruct (PixivArtwork.__init__ (rt := Reference.runtime) Reference.sunset_nested)
    as [self | e] eqn:Hinit; [| vm_compute in Hinit; discriminate Hinit].
  exists self. split; [reflexivity |].
  pose proof (tags_polymorphic (rt := Reference.runtime) Reference.sunset_nested self
                (VDict [("tags", VList [VDict [("tag", VStr "calm")];
                                        VDict [("tag", VStr "sora");
                                               ("translated_name", VStr "sky")]])])
                Hinit eq_refl) as H.
  cbv beta iota in H.
  destruct H as (nested & items & objs & Hnested & Hiter & Helems & Hall & Htags).
  cbn in Hnested. injection Hnested as <-.
  specialize (Helems _ eq_refl). subst items.
  inversion Hall as [| d1 t1 r1 o1 H1 Hrest]; subst.
  inversion Hrest as [| d2 t2 r2 o2 H2 Hnil]; subst.
  inversion Hnil; subst.
  vm_compute in H1, H2. injection H1 as <-. injection H2 as <-.
  exact Htags.
Defined.

(** The flat form of the example is stored as it came. *)
Example tags_flat :
  exists self,
    PixivArtwork.__init__ (rt := Reference.runtime) Reference.sunset = Ok self
    /\ PixivArtwork.tags self = PixivArtwork.AsGiven (VList [VStr "calm"; VStr "sky"]).
Proof.
  exists Reference.sunset_artwork. split; [apply sunset_constructs | reflexivity].
Qed.

(** The example on the reference runtime. *)
Lemma sunset_example_witness :
  exists self,
    PixivArtwork.__init__ (rt := Reference.runtime) Reference.sunset = Ok self
    /\ PixivArtwork.nsfw self = false
    /\ PixivArtwork.tags self = PixivArtwork.AsGiven (VList [VStr "calm"; VStr "sky"])
    /\ PixivArtwork.url self = "https://www.pixiv.net/en/artworks/123".
Proof.
  exact (sunset_example (rt := Reference.runtime)
           (mk_datetime 2023 1 1 0 0 0 0 None) eq_refl eq_refl).
Defined.

(** The example has [xRestrict = 0]: not restricted. *)
Lemma nsfw_iff_restricted_witness :
  PixivArtwork.nsfw Reference.sunset_artwork = false.
Proof.
  destruct (nsfw_iff_restricted (rt := Reference.runtime) Reference.sunset
              Reference.sunset_artwork (VInt 0) sunset_constructs eq_refl)
    as (Hbool & _).
  exact Hbool.
Defined.

(** With [xRestrict = 2] the Artwork is restricted. *)
Example nsfw_restricted :
  exists self,
    PixivArtwork.__init__ (rt := Reference.runtime)
      (Reference.with_field "xRestrict" (VInt 2) Reference.sunset) = Ok self
    /\ PixivArtwork.nsfw self = true.
Proof. eexists. split; reflexivity. Qed.

(** A document without [urls] whose timestamp is malformed: the timestamp
    step comes first, so the parse error is raised, not the missing-field
    error. *)
Lemma init_outcomes_witness :
  PixivArtwork.__init__ (rt := Reference.runtime)
    (Reference.with_field "createDate" (VStr "yesterday")
       (Reference.without_field "urls" Reference.sunset))
  = Err ValueError.
Proof.
  destruct (init_outcomes (rt := Reference.runtime)
              (Reference.with_field "createDate" (VStr "yesterday")
                 (Reference.without_field "urls" Reference.sunset)))
    as (_ & _ & Hdate & _).
  destruct (Hdate "yesterday" eq_refl eq_refl) as (_ & Hkind).
  apply Hkind. reflexivity.
Defined.

(** A document without [title]: the missing-field error names it. *)
Example missing_title :
  PixivArtwork.__init__ (rt := Reference.runtime)
    (Reference.without_field "title" Reference.sunset) = Err (KeyError "title").
Proof. reflexivity. Qed.

(** The nested form renders, tags first. *)
Example nested_tags_render :
  exists self embed,
    PixivArtwork.__init__ (rt := Reference.runtime) Reference.sunset_nested = Ok self
    /\ PixivArtwork.create_embed (rt := Reference.runtime) (links := Reference.templates)
         self "image.png" = Ok embed
    /\ Embed.field_names embed
       = ["Tags"; "Artwork ID"; "Author"; "Size"; "Pages count"; "Artwork link"]
    /\ map Embed.value (Embed.fields embed)
       = ["[calm](https://www.pixiv.net/en/tags/calm/artworks), [sky](https://www.pixiv.net/en/tags/sora/artworks)";
          "123"; "[Ann](https://www.pixiv.net/en/users/5)"; "800 x 600"; "1";
          "https://www.pixiv.net/en/artworks/123"].
Proof. eexists. eexists. repeat split. Qed.

(* ===================================================================== *)
(** ** Further properties of [src/pixiv/artwork.py] *)
(* ===================================================================== *)

(* --------------------------------------------------------------------- *)
(** *** Decimal text of integers *)
(* --------------------------------------------------------------------- *)

Lemma to_int_not_nil (z : Z) :
  Z.to_int z <> Decimal.Pos Decimal.Nil /\ Z.to_int z <> Decimal.Neg Decimal.Nil.
Proof.
  destruct z as [| p | p]; cbn; split; try discriminate;
    intros H; injection H as H; exact (DecimalPos.Unsigned.to_uint_nonnil p H).
Qed.

(** Reading back the decimal text of an integer gives the integer. *)
Lemma decimal_int_str_of_int (z : Z) :
  Reference.decimal_int (str_of_int z) = Some z.
Proof.
  unfold Reference.decimal_int, str_of_int.
  destruct (to_int_not_nil z) as [Hpos Hneg].
  rewrite (NilZero.isi _ Hpos Hneg). cbn [option_map].
  rewrite DecimalZ.of_to. reflexivity.
Qed.

Lemma str_of_int_inj (a b : Z) : str_of_int a = str_of_int b -> a = b.
Proof.
  intros H.
  pose proof (decimal_int_str_of_int a) as Ha.
  rewrite H, decimal_int_str_of_int in Ha. injection Ha as ->. reflexivity.
Qed.

Lemma append_cancel (p a b : string) : p ++ a = p ++ b -> a = b.
Proof.
  induction p as [| c p IH]; cbn; [trivial |].
  intros H. injection H as H. apply IH, H.
Qed.

Section MoreArtwork.
Context {rt : PyRuntime} {links : LinkTemplates}.

Import PixivArtwork.

(** X1. Whatever the provider answers and whatever comes out of it, [get]
    sends exactly one request, to the metadata endpoint of the id it was
    given, writes nothing to the terminal and reads nothing from the
    operator: there is no retry and no second request. *)
Theorem get_sends_one_request (artwork_id : Z) (w : world) :
  snd (run (get artwork_id) w) =
  {| provider := provider w;
     stdin := stdin w;
     stdout := stdout w;
     requests := requests w
                 ++ ["https://www.pixiv.net/ajax/illust/" ++ str_of_int artwork_id] |}.
Proof. rewrite run_get. reflexivity. Qed.

(** X2. [get] never raises an exception of the classes it suppresses
    ([aiohttp.ClientError], [asyncio.TimeoutError]): a caller need not
    guard against them. *)
Theorem get_never_raises_suppressed (artwork_id : Z) (w : world) (e : exn) :
  fst (run (get artwork_id) w) = Err e ->
  e <> ClientError /\ e <> TimeoutError.
Proof.
  rewrite run_get. cbn [fst]. unfold get_outcome. intros H.
  assert (Hs : suppressed e = false).
  { destruct (provider w (illust_url artwork_id)) as [r | e0].
    - destruct (negb (status r =? 200)%Z); [discriminate H |].
      destruct (json r) as [data | e0].
      + pose proof (read_envelope_escapes data) as He. rewrite H in He. exact He.
      + destruct (suppressed e0) eqn:Hs0; [discriminate H |].
        injection H as <-. exact Hs0.
    - destruct (suppressed e0) eqn:Hs0; [discriminate H |].
      injection H as <-. exact Hs0. }
  split; intros ->; discriminate Hs.
Qed.

(** X3. [get] returns an Artwork in one case only: the status is 200, the
    body parses, its [error] flag is falsy, it has a [body] entry, and the
    construction accepts that entry; the Artwork returned is the one
    constructed. *)
Theorem get_returns_artwork_iff (artwork_id : Z) (w : world) (artwork : PixivArtwork.t) :
  fst (run (get artwork_id) w) = Ok (Some artwork) <->
  exists r data flag body,
    provider w (illust_url artwork_id) = Ok r
    /\ status r = 200
    /\ json r = Ok data
    /\ py_getitem data "error" = Ok flag
    /\ py_bool flag = false
    /\ py_getitem data "body" = Ok body
    /\ __init__ body = Ok artwork.
Proof.
  rewrite run_get. cbn [fst]. unfold get_outcome. split.
  - destruct (provider w (illust_url artwork_id)) as [r | e].
    + destruct (status r =? 200)%Z eqn:Hst; cbn [negb]; [| discriminate].
      apply Z.eqb_eq in Hst.
      destruct (json r) as [data | e] eqn:Hj.
      * unfold read_envelope.
        destruct (py_getitem data "error") as [flag | e] eqn:Herr; monad_step;
          [| discriminate].
        destruct (py_bool flag) eqn:Hflag; monad_step; [discriminate |].
        destruct (py_getitem data "body") as [body | e] eqn:Hbody; monad_step;
          [| discriminate].
        destruct (__init__ body) as [a | e] eqn:Hinit; monad_step; [| discriminate].
        intros H. injection H as <-.
        exists r, data, flag, body. repeat split; assumption.
      * destruct (suppressed e); discriminate.
    + destruct (suppressed e); discriminate.
  - intros (r & data & flag & body & -> & Hst & Hj & Herr & Hflag & Hbody & Hinit).
    rewrite Hst, Hj. cbn [Z.eqb Pos.eqb negb].
    unfold read_envelope. rewrite Herr. monad_step. rewrite Hflag, Hbody. monad_step.
    rewrite Hinit. reflexivity.
Qed.

(** X4. A 200 response whose parsed body is not an envelope is not taken
    for an absent artwork: without an ["error"] key [get] raises
    [KeyError], and on a body that is no JSON object (a list, a string, a
    number, null) it raises [TypeError]. *)
Theorem get_bad_envelope_raises (artwork_id : Z) (w : world) (r : response) (data : pyval) :
  provider w (illust_url artwork_id) = Ok r ->
  status r = 200 ->
  json r = Ok data ->
  match data with
  | VDict entries =>
      lookup "error" entries = None ->
      fst (run (get artwork_id) w) = Err (KeyError "error")
  | _ => fst (run (get artwork_id) w) = Err TypeError
  end.
Proof.
  intros Hp Hst Hj. rewrite run_get. cbn [fst]. unfold get_outcome.
  rewrite Hp, Hst, Hj. cbn [Z.eqb Pos.eqb negb]. unfold read_envelope.
  destruct data; try reflexivity.
  intros Hl. cbn [py_getitem]. rewrite Hl. reflexivity.
Qed.

(** X5. [get_image_url] never uses the network: it sends no request, and
    what it returns does not depend on the provider or on the requests
    made before, only on the Artwork and on what the operator types. *)
Theorem get_image_url_offline
    (self : PixivArtwork.t) (w : world)
    (other_provider : string -> result response) (other_requests : list string) :
  requests (snd (run (get_image_url self) w)) = requests w
  /\ fst (run (get_image_url self)
            {| provider := other_provider; stdin := stdin w;
               stdout := stdout w; requests := other_requests |})
     = fst (run (get_image_url self) w).
Proof.
  rewrite get_image_url_cases.
  destruct (py_getitem (image_urls self) "regular") as [v | e]; [| split; reflexivity].
  destruct v; try (split; reflexivity).
  cbn [run]. unfold read_line, write. cbn [stdin].
  destruct (stdin w); split; reflexivity.
Qed.

(** X6. When the regular URL is null and the operator's input is at its
    end, [get_image_url] raises [EOFError], after it has printed the notice
    and the prompt. *)
Theorem get_image_url_eof (self : PixivArtwork.t) (w : world) :
  py_getitem (image_urls self) "regular" = Ok VNone ->
  stdin w = [] ->
  run (get_image_url self) w =
  (Err EOFError,
   {| provider := provider w;
      stdin := [];
      stdout := (stdout w ++ [manual_notice self ++ newline]) ++ ["image URL>"];
      requests := requests w |}).
Proof.
  intros Hnull Hin. rewrite get_image_url_cases, Hnull.
  cbn [run]. unfold read_line, write. cbn [stdin]. rewrite Hin. reflexivity.
Qed.

(** X7. [get_image_url] does not check what it finds under ["regular"]:
    any value other than [None], a number or a list as well as a string,
    is returned as it is, without any effect. *)
Theorem get_image_url_unchecked (self : PixivArtwork.t) (v : pyval) :
  py_getitem (image_urls self) "regular" = Ok v ->
  is_none v = false ->
  get_image_url self = Ret v
  /\ forall w, run (get_image_url self) w = (Ok v, w).
Proof.
  intros Hv Hnn. rewrite get_image_url_cases, Hv.
  destruct v; try discriminate Hnn; split; reflexivity.
Qed.

(** X8. The construction reads the eleven required fields and nothing
    else: two documents that agree on them construct the same Artwork or
    raise the same exception, whatever else they contain. *)
Theorem init_reads_required_fields_only (first second : pyval) :
  (forall key, In key required_fields -> py_getitem first key = py_getitem second key) ->
  __init__ first = __init__ second.
Proof.
  intros Hsame. unfold __init__.
  repeat match goal with
         | |- context [py_getitem first ?key] =>
             rewrite (Hsame key) by (unfold required_fields; cbn [In]; tauto)
         end.
  reflexivity.
Qed.

(** X9. The canonical link determines the Artwork id: two Artworks with
    the same [url] have the same [id]. *)
Theorem url_determines_id (first second : PixivArtwork.t) :
  url first = url second -> id first = id second.
Proof.
  unfold url. intros H. apply append_cancel in H. apply str_of_int_inj, H.
Qed.

(** The markup of a list of tag objects, in order. *)
Lemma traverse_tag_objects (objs : list PixivArtworkTag.t) :
  traverse tag_markup (map TagObject objs)
  = Ok (map (fun tag => "[" ++ PixivArtworkTag.__str__ tag ++ "]("
                        ++ PixivArtworkTag.url tag ++ ")") objs).
Proof.
  induction objs as [| tag rest IH]; cbn [map traverse tag_markup]; [reflexivity |].
  rewrite IH. reflexivity.
Qed.

(** The rendering of [PixivArtwork.create_embed], which leaves the
    timestamp as it is, goes through exactly when the author name is a
    string and the tag list is a list of tag objects or a falsy value. *)
Lemma create_embed_unstamped_iff (self : PixivArtwork.t) (attachment_name : string) :
  (exists embed, create_embed self attachment_name = Ok embed) <->
  (exists name, PartialUser.name (author self) = VStr name)
  /\ match tags self with
     | TagObjects _ => True
     | AsGiven v => py_bool v = false
     end.
Proof.
  unfold create_embed. cbn [bind ret Monad_result]. split.
  - intros [embed H].
    destruct (tags self) as [objs | v].
    + cbn [tags_truthy tags_iter] in H.
      assert (Hname : exists e0, escape (PartialUser.name (author self)) = Ok e0).
      { destruct objs as [| tag rest]; cbn [result_bind] in H.
        - destruct (escape (PartialUser.name (author self))); [eexists; reflexivity | discriminate H].
        - rewrite traverse_tag_objects in H. cbn [result_bind] in H.
          destruct (escape (PartialUser.name (author self))); [eexists; reflexivity | discriminate H]. }
      destruct Hname as [e0 He0]. split; [| exact I].
      unfold escape in He0.
      destruct (PartialUser.name (author self)); try discriminate He0.
      eexists. reflexivity.
    + cbn [tags_truthy] in H.
      destruct (py_bool v) eqn:Hv.
      * exfalso. cbn [tags_iter bind Monad_result] in H.
        destruct v as [| b | z | f | s | items | entries]; cbn [py_iter result_bind] in H;
          try discriminate H; try discriminate Hv.
        -- destruct s; [discriminate Hv | discriminate H].
        -- destruct items; [discriminate Hv | discriminate H].
        -- destruct entries; [discriminate Hv | discriminate H].
      * cbn [result_bind] in H. split; [| reflexivity].
        unfold escape in H.
        destruct (PartialUser.name (author self)); try discriminate H.
        eexists. reflexivity.
  - intros [[name Hname] Htags]. rewrite Hname. cbn [escape].
    destruct (tags self) as [objs | v].
    + cbn [tags_truthy tags_iter]. destruct objs as [| tag rest]; cbn [result_bind].
      * eexists. reflexivity.
      * rewrite traverse_tag_objects. cbn [result_bind]. eexists. reflexivity.
    + cbn [tags_truthy]. rewrite Htags. cbn [result_bind]. eexists. reflexivity.
Qed.

(** X11. The attachment name reaches the image reference and nothing
    else: rendering under another name succeeds as well, with the same
    title, link, colour, timestamp and fields. *)
Theorem create_embed_attachment_name
    (self : PixivArtwork.t) (name other : string) (embed : Embed.t) :
  create_embed self name = Ok embed ->
  create_embed self other =
  Ok {| Embed.title := Embed.title embed;
        Embed.url := Embed.url embed;
        Embed.colour := Embed.colour embed;
        Embed.timestamp := Embed.timestamp embed;
        Embed.image := Some ("attachment://" ++ other);
        Embed.fields := Embed.fields embed |}.
Proof.
  unfold create_embed. cbn [bind ret Monad_result].
  destruct (tags_truthy (tags self)); cbn [result_bind].
  - destruct (tags_iter (tags self)) as [items | e]; cbn [result_bind]; [| discriminate].
    destruct (traverse tag_markup items) as [parts | e]; cbn [result_bind]; [| discriminate].
    destruct (escape (PartialUser.name (author self))) as [author_name | e];
      cbn [result_bind]; [| discriminate].
    intros H. injection H as <-. reflexivity.
  - destruct (escape (PartialUser.name (author self))) as [author_name | e];
      cbn [result_bind]; [| discriminate].
    intros H. injection H as <-. reflexivity.
Qed.

(** X12. For an Artwork built from the nested form with at least one tag,
    the payload's first field is the tags field, not inline, and its value
    lists every tag once, in the original order, as [[display](link)]
    separated by a comma and a space. *)
Theorem create_embed_tags_value
    (self : PixivArtwork.t) (tag : PixivArtworkTag.t) (rest : list PixivArtworkTag.t)
    (attachment_name : string) (embed : Embed.t) :
  tags self = TagObjects (tag :: rest) ->
  create_embed self attachment_name = Ok embed ->
  hd_error (Embed.fields embed) =
  Some {| Embed.name := "Tags";
          Embed.value :=
            join ", "
              (map (fun t => "[" ++ PixivArtworkTag.__str__ t ++ "]("
                             ++ PixivArtworkTag.url t ++ ")") (tag :: rest));
          Embed.inline := false |}.
Proof.
  intros Htags. unfold create_embed. rewrite Htags.
  cbn [bind ret Monad_result tags_truthy tags_iter result_bind].
  rewrite traverse_tag_objects. cbn [result_bind].
  destruct (escape (PartialUser.name (author self))) as [author_name | e];
    cbn [result_bind]; [| discriminate].
  intros H. injection H as <-. reflexivity.
Qed.

(** X13. A [tags] object without a nested ["tags"] entry is reported like
    an absent field: when the steps before it succeed, the construction
    raises [KeyError] on ["tags"] although the document has a [tags]
    field. *)
Theorem init_nested_tags_missing (data : pyval) (entries : list (string * pyval)) :
  first_failure data ["id"; "title"; "userId"; "userName"; "xRestrict"; "createDate"] = None ->
  py_getitem data "tags" = Ok (VDict entries) ->
  lookup "tags" entries = None ->
  __init__ data = Err (KeyError "tags").
Proof.
  intros Hbefore Htags Hnested.
  apply (init_fails_at data
           ["id"; "title"; "userId"; "userName"; "xRestrict"; "createDate"]
           ["width"; "height"; "pageCount"; "urls"] "tags");
    [reflexivity | exact Hbefore |].
  cbn [first_failure]. rewrite Htags. unfold field_check.
  cbn [String.eqb Ascii.eqb Bool.eqb]. unfold init_tags.
  cbn [is_dict bind Monad_result py_getitem]. rewrite Hnested. reflexivity.
Qed.

End MoreArtwork.

(* ===================================================================== *)
(** ** Properties of [URL_PATTERN] ([src/main.py]) *)
(* ===================================================================== *)

Example url_with_locale :
  option_map (group 2)
    (fullmatch URL_PATTERN "https://www.pixiv.net/en/artworks/98765/?lang=en")
  = Some (Some "98765").
Proof. reflexivity. Qed.

Example url_without_digits :
  fullmatch URL_PATTERN "https://www.pixiv.net/en/artworks/" = None.
Proof. reflexivity. Qed.

Lemma backtrack_Cat (a b : regex) (s : string) (g : captures)
    (k : string -> captures -> option captures) :
  backtrack (Cat a b) s g k = backtrack a s g (fun s' g' => backtrack b s' g' k).
Proof. reflexivity. Qed.

Lemma backtrack_Text (text s : string) (g : captures)
    (k : string -> captures -> option captures) :
  backtrack (Text text) s g k =
  match strip_prefix text s with
  | Some rest => k rest g
  | None => None
  end.
Proof.
  revert s. induction text as [| p text IH]; intros s; cbn [Text backtrack strip_prefix].
  - reflexivity.
  - destruct s as [| c s]; [reflexivity |].
    destruct (Ascii.eqb c p); [apply IH | reflexivity].
Qed.

(** [.*] up to the end of the text: the text must be on one line. *)
Lemma any_to_end (rounds : nat) (s : string) (g : captures) :
  (String.length s <= rounds)%nat ->
  repeat_greedy (backtrack AnyChar) at_end rounds s g
  = if no_newline s then Some g else None.
Proof.
  revert s. induction rounds as [| rounds IH]; intros s Hlen.
  - destruct s; [reflexivity | cbn in Hlen; lia].
  - destruct s as [| c s]; [reflexivity |].
    cbn [repeat_greedy backtrack no_newline].
    destruct (is_newline c); cbn [negb andb]; [reflexivity |].
    assert (Hlt : (String.length s <? String.length (String c s))%nat = true).
    { apply Nat.ltb_lt. cbn. lia. }
    rewrite Hlt, IH by (cbn in Hlen; lia).
    destruct (no_newline s); reflexivity.
Qed.

(** [/?.*] up to the end of the text. *)
Lemma tail_to_end (s : string) (g : captures) :
  backtrack (Cat (Maybe (Lit "/")) (ZeroOrMore AnyChar)) s g at_end
  = if no_newline s then Some g else None.
Proof.
  rewrite backtrack_Cat. cbn [backtrack].
  destruct s as [| c s].
  - reflexivity.
  - destruct (Ascii.eqb c "/") eqn:Hc.
    + apply Ascii.eqb_eq in Hc. subst c.
      rewrite !any_to_end by (cbn; lia).
      cbn [no_newline is_newline Ascii.eqb Bool.eqb negb andb].
      destruct (no_newline s); reflexivity.
    + apply any_to_end. lia.
Qed.

Lemma span_digits_no_newline (s digits tail : string) :
  span_digits s = (digits, tail) ->
  no_newline tail = false -> no_newline s = false.
Proof.
  revert digits tail. induction s as [| c s IH]; intros digits tail Hspan Htail.
  - cbn in Hspan. injection Hspan as <- <-. exact Htail.
  - cbn [span_digits] in Hspan. destruct (is_digit c).
    + destruct (span_digits s) as [d t]. injection Hspan as <- <-.
      cbn [no_newline]. rewrite (IH d t eq_refl Htail). apply andb_false_r.
    + injection Hspan as <- <-. exact Htail.
Qed.

(** [\d*] before a continuation that only asks for a text on one line:
    the loop takes the longest run of digits. *)
Lemma digits_greedy
    (h : string -> captures -> captures)
    (k : string -> captures -> option captures)
    (rounds : nat) (s : string) (g : captures) :
  (forall s' g', k s' g' = if no_newline s' then Some (h s' g') else None) ->
  (String.length s <= rounds)%nat ->
  repeat_greedy (backtrack DigitChar) k rounds s g
  = if no_newline (snd (span_digits s)) then Some (h (snd (span_digits s)) g) else None.
Proof.
  intros Hk. revert s. induction rounds as [| rounds IH]; intros s Hlen.
  - destruct s; [apply Hk | cbn in Hlen; lia].
  - destruct s as [| c s]; [apply Hk |].
    cbn [repeat_greedy backtrack span_digits].
    destruct (is_digit c).
    + assert (Hlt : (String.length s <? String.length (String c s))%nat = true).
      { apply Nat.ltb_lt. cbn. lia. }
      rewrite Hlt, IH by (cbn in Hlen; lia).
      destruct (span_digits s) as [d t] eqn:Hspan. cbn [snd].
      destruct (no_newline t) eqn:Ht; [reflexivity |].
      rewrite Hk. cbn [no_newline].
      rewrite (span_digits_no_newline s d t Hspan Ht), andb_false_r. reflexivity.
    + cbn [snd]. apply Hk.
Qed.

Lemma span_digits_app (s : string) :
  s = fst (span_digits s) ++ snd (span_digits s).
Proof.
  induction s as [| c s IH]; [reflexivity |].
  cbn [span_digits]. destruct (is_digit c); [| reflexivity].
  destruct (span_digits s) as [d t]. cbn [fst snd] in *. cbn. f_equal. exact IH.
Qed.

Lemma length_append (a b : string) :
  String.length (a ++ b) = (String.length a + String.length b)%nat.
Proof. induction a as [| c a IH]; cbn; [reflexivity | rewrite IH; reflexivity]. Qed.

Lemma consumed_append (a b : string) : consumed (a ++ b) b = a.
Proof.
  unfold consumed. rewrite length_append.
  replace (String.length a + String.length b - String.length b)%nat
    with (String.length a) by lia.
  induction a as [| c a IH]; cbn.
  - destruct b; reflexivity.
  - f_equal. exact IH.
Qed.

(** [(\d+)/?.*] up to the end of the text. *)
Lemma digits_to_end (s : string) (g : captures) :
  backtrack (Cat (Group 2 (OneOrMore DigitChar))
               (Cat (Maybe (Lit "/")) (ZeroOrMore AnyChar))) s g at_end
  = match fst (span_digits s) with
    | EmptyString => None
    | digits =>
        if no_newline (snd (span_digits s)) then Some ((2%nat, digits) :: g) else None
    end.
Proof.
  rewrite backtrack_Cat. unfold OneOrMore. cbn [backtrack].
  destruct s as [| c s]; [reflexivity |].
  cbn [span_digits]. destruct (is_digit c); [| reflexivity].
  rewrite (digits_greedy
             (fun s' g' => (2%nat, consumed (String c s) s') :: g')
             _ _ s g).
  - pose proof (span_digits_app s) as Happ.
    destruct (span_digits s) as [d t]. cbn [fst snd] in *.
    destruct (no_newline t); [| reflexivity].
    rewrite Happ. change (String c (d ++ t)) with (String c d ++ t).
    rewrite consumed_append. reflexivity.
  - intros s' g'.
    change (backtrack (Maybe (Lit "/")) s' ((2%nat, consumed (String c s) s') :: g')
              (fun s0 g0 => backtrack (ZeroOrMore AnyChar) s0 g0
                 (fun rest g1 => match rest with EmptyString => Some g1 | _ => None end)))
      with (backtrack (Cat (Maybe (Lit "/")) (ZeroOrMore AnyChar)) s'
              ((2%nat, consumed (String c s) s') :: g') at_end).
    apply tail_to_end.
  - lia.
Qed.

Lemma backtrack_Maybe (body : regex) (s : string) (g : captures)
    (k : string -> captures -> option captures) :
  backtrack (Maybe body) s g k =
  match backtrack body s g k with
  | Some found => Some found
  | None => k s g
  end.
Proof. reflexivity. Qed.

Lemma backtrack_Group (index : nat) (body : regex) (s : string) (g : captures)
    (k : string -> captures -> option captures) :
  backtrack (Group index body) s g k =
  backtrack body s g (fun s' g' => k s' ((index, consumed s s') :: g')).
Proof. reflexivity. Qed.

(** [artworks/(\d+)/?.*] up to the end of the text. *)
Lemma path_to_end (s : string) (g : captures) :
  backtrack (Cat (Text "artworks/")
               (Cat (Group 2 (OneOrMore DigitChar))
                  (Cat (Maybe (Lit "/")) (ZeroOrMore AnyChar)))) s g at_end
  = match strip_prefix "artworks/" s with
    | None => None
    | Some after_path =>
        match fst (span_digits after_path) with
        | EmptyString => None
        | digits =>
            if no_newline (snd (span_digits after_path))
            then Some ((2%nat, digits) :: g) else None
        end
    end.
Proof.
  rewrite backtrack_Cat, backtrack_Text.
  destruct (strip_prefix "artworks/" s) as [after_path |]; [| reflexivity].
  apply digits_to_end.
Qed.

Lemma locale_excludes_path (s rest : string) :
  strip_prefix "en/" s = Some rest -> strip_prefix "artworks/" s = None.
Proof.
  destruct s as [| c s]; [discriminate |].
  cbn [strip_prefix]. destruct (Ascii.eqb_spec c "e") as [-> | Hne]; [| discriminate].
  intros _. reflexivity.
Qed.

(** [URL_PATTERN.fullmatch] accepts a link exactly when the hand reading
    [artwork_digits] does, and its group 2 is then that run of digits. *)
Lemma fullmatch_artwork_digits (link : string) :
  option_map (group 2) (fullmatch URL_PATTERN link)
  = option_map Some (artwork_digits link).
Proof.
  unfold fullmatch, URL_PATTERN, artwork_digits.
  change (fun (rest : string) (g : captures) =>
            match rest with EmptyString => Some g | String _ _ => None end)
    with at_end.
  rewrite backtrack_Cat, backtrack_Text.
  destruct (strip_prefix "https://www.pixiv.net/" link) as [after_site |];
    [| reflexivity].
  rewrite backtrack_Cat, backtrack_Maybe, backtrack_Group, backtrack_Text.
  rewrite !path_to_end.
  destruct (strip_prefix "en/" after_site) as [rest |] eqn:Hlocale.
  - rewrite (locale_excludes_path after_site rest Hlocale), ?path_to_end.
    destruct (strip_prefix "artworks/" rest) as [after_path |]; [| reflexivity].
    destruct (span_digits after_path) as [digits tail]. cbn [fst snd].
    destruct digits; [reflexivity |].
    destruct (no_newline tail); reflexivity.
  - destruct (strip_prefix "artworks/" after_site) as [after_path |]; [| reflexivity].
    destruct (span_digits after_path) as [digits tail]. cbn [fst snd].
    destruct digits; [reflexivity |].
    destruct (no_newline tail); reflexivity.
Qed.

Lemma strip_prefix_append (prefix rest : string) :
  strip_prefix prefix (prefix ++ rest) = Some rest.
Proof.
  induction prefix as [| p prefix IH]; cbn; [reflexivity |].
  rewrite Ascii.eqb_refl. exact IH.
Qed.

Lemma strip_prefix_inv (prefix text rest : string) :
  strip_prefix prefix text = Some rest -> text = prefix ++ rest.
Proof.
  revert text. induction prefix as [| p prefix IH]; intros text; cbn.
  - intros H. injection H as ->. reflexivity.
  - destruct text as [| c text]; [discriminate |].
    destruct (Ascii.eqb_spec c p) as [-> | Hne]; [| discriminate].
    intros H. f_equal. apply IH, H.
Qed.

Lemma span_digits_spec (s : string) :
  all_digits (fst (span_digits s)) = true
  /\ starts_with_digit (snd (span_digits s)) = false.
Proof.
  induction s as [| c s IH]; [split; reflexivity |].
  cbn [span_digits]. destruct (is_digit c) eqn:Hc.
  - destruct (span_digits s) as [d t]. cbn [fst snd] in *.
    cbn [all_digits]. rewrite Hc. exact IH.
  - cbn [fst snd all_digits starts_with_digit]. split; [reflexivity | exact Hc].
Qed.

Lemma span_digits_append (digits tail : string) :
  all_digits digits = true -> starts_with_digit tail = false ->
  span_digits (digits ++ tail) = (digits, tail).
Proof.
  intros Hd Ht. induction digits as [| c digits IH]; cbn [append].
  - destruct tail as [| c tail]; [reflexivity |].
    cbn [span_digits]. cbn in Ht. rewrite Ht. reflexivity.
  - cbn [all_digits] in Hd. apply andb_true_iff in Hd as [Hc Hrest].
    cbn [span_digits]. rewrite Hc, (IH Hrest). reflexivity.
Qed.

(** X14. On a link of ASCII characters (where the class [\d] of the
    pattern is the class of the ten ASCII digits), [URL_PATTERN.fullmatch]
    accepts the link, with [digits] as its group 2, exactly when the link
    is [https://www.pixiv.net/], an optional [en/], [artworks/], the
    non-empty run of digits [digits], and then any text that does not go on
    with a digit and holds no line break.  Nothing has to separate the
    digits from what follows them. *)
Theorem url_pattern_accepts (link digits : string) :
  ascii_text link = true ->
  (option_map (group 2) (fullmatch URL_PATTERN link) = Some (Some digits) <->
   exists locale tail,
     (locale = "" \/ locale = "en/")
     /\ link = "https://www.pixiv.net/" ++ locale ++ "artworks/" ++ digits ++ tail
     /\ digits <> ""
     /\ all_digits digits = true
     /\ starts_with_digit tail = false
     /\ no_newline tail = true).
Proof.
  intros _.
  rewrite fullmatch_artwork_digits. unfold artwork_digits. split.
  - destruct (strip_prefix "https://www.pixiv.net/" link) as [after_site |] eqn:Hsite;
      [| discriminate].
    apply strip_prefix_inv in Hsite.
    assert (Hgoal : forall locale after_locale,
               (locale = "" \/ locale = "en/") ->
               after_site = locale ++ after_locale ->
               option_map Some
                 match strip_prefix "artworks/" after_locale with
                 | Some after_path =>
                     let '(digits0, tail) := span_digits after_path in
                     match digits0 with
                     | "" => None
                     | String _ _ => if no_newline tail then Some digits0 else None
                     end
                 | None => None
                 end = Some (Some digits) ->
               exists locale0 tail,
                 (locale0 = "" \/ locale0 = "en/")
                 /\ link = "https://www.pixiv.net/" ++ locale0 ++ "artworks/" ++ digits ++ tail
                 /\ digits <> ""
                 /\ all_digits digits = true
                 /\ starts_with_digit tail = false
                 /\ no_newline tail = true).
    { intros locale after_locale Hlocale Hafter.
      destruct (strip_prefix "artworks/" after_locale) as [after_path |] eqn:Hpath;
        [| discriminate].
      apply strip_prefix_inv in Hpath.
      pose proof (span_digits_spec after_path) as [Hall Hstart].
      pose proof (span_digits_app after_path) as Happ.
      destruct (span_digits after_path) as [d t]. cbn [fst snd] in *.
      destruct d as [| c d]; [discriminate |].
      destruct (no_newline t) eqn:Hnl; [| discriminate].
      intros H. injection H as <-.
      exists locale, t. repeat split; try assumption; [| discriminate].
      rewrite Hsite, Hafter, Hpath, Happ. reflexivity. }
    destruct (strip_prefix "en/" after_site) as [rest |] eqn:Hlocale.
    + apply strip_prefix_inv in Hlocale.
      apply (Hgoal "en/" rest); [right; reflexivity | exact Hlocale].
    + apply (Hgoal "" after_site); [left; reflexivity | reflexivity].
  - intros (locale & tail & Hlocale & -> & Hne & Hall & Hstart & Hnl).
    rewrite strip_prefix_append.
    destruct Hlocale as [-> | ->].
    + change ("" ++ "artworks/" ++ digits ++ tail) with ("artworks/" ++ digits ++ tail).
      change (strip_prefix "en/" ("artworks/" ++ digits ++ tail)) with (@None string).
      cbv iota.
      rewrite strip_prefix_append, (span_digits_append digits tail Hall Hstart), Hnl.
      destruct digits; [contradiction Hne; reflexivity | reflexivity].
    + rewrite !strip_prefix_append, (span_digits_append digits tail Hall Hstart), Hnl.
      destruct digits; [contradiction Hne; reflexivity | reflexivity].
Qed.

Lemma append_empty (s : string) : s ++ "" = s.
Proof. induction s as [| c s IH]; cbn; [reflexivity | rewrite IH; reflexivity]. Qed.

Lemma uint_text_digits (d : Decimal.uint) :
  all_digits (NilEmpty.string_of_uint d) = true.
Proof. induction d; cbn; trivial. Qed.

(** The decimal text of a natural number: digits only, at least one. *)
Lemma str_of_int_digits (z : Z) :
  0 <= z -> all_digits (str_of_int z) = true /\ str_of_int z <> "".
Proof.
  intros Hz. unfold str_of_int.
  destruct z as [| p | p]; [split; [reflexivity | discriminate] | | lia].
  cbn [Z.to_int NilZero.string_of_int]. unfold NilZero.string_of_uint.
  pose proof (DecimalPos.Unsigned.to_uint_nonnil p) as Hnil.
  destruct (Pos.to_uint p) eqn:Hp; try (contradiction Hnil; reflexivity);
    (split; [rewrite <- Hp at 1; cbn; rewrite ?uint_text_digits; reflexivity
            | cbn; discriminate]).
Qed.

Lemma canonical_link_matches (self : PixivArtwork.t) :
  option_map (group 2) (fullmatch URL_PATTERN (PixivArtwork.url self))
  = if (0 <=? PixivArtwork.id self)%Z
    then Some (Some (str_of_int (PixivArtwork.id self)))
    else None.
Proof.
  rewrite fullmatch_artwork_digits. unfold PixivArtwork.url, artwork_digits.
  change ("https://www.pixiv.net/en/artworks/" ++ str_of_int (PixivArtwork.id self))
    with ("https://www.pixiv.net/"
          ++ ("en/" ++ ("artworks/" ++ str_of_int (PixivArtwork.id self)))).
  rewrite !strip_prefix_append.
  destruct (Z.leb_spec 0 (PixivArtwork.id self)) as [Hz | Hz].
  - destruct (str_of_int_digits _ Hz) as [Hall Hne].
    rewrite <- (append_empty (str_of_int (PixivArtwork.id self))) at 1.
    rewrite (span_digits_append _ "" Hall eq_refl).
    destruct (str_of_int (PixivArtwork.id self)); [contradiction Hne; reflexivity |].
    reflexivity.
  - unfold str_of_int. destruct (PixivArtwork.id self) as [| p | p]; try lia.
    reflexivity.
Qed.

(** X15. The pattern of [main] reads back the links [PixivArtwork.url]
    writes: on the canonical link of an Artwork with a non-negative id,
    [URL_PATTERN.fullmatch] succeeds and its group 2 is the decimal text of
    that id; the link of a negative id is refused. *)
Theorem canonical_link_round_trip (self : PixivArtwork.t) :
  option_map (group 2) (fullmatch URL_PATTERN (PixivArtwork.url self))
  = if (0 <=? PixivArtwork.id self)%Z
    then Some (Some (str_of_int (PixivArtwork.id self)))
    else None.
Proof. exact (canonical_link_matches self). Qed.


(* ===================================================================== *)
(** ** Properties of the command loop ([src/main.py]) *)
(* ===================================================================== *)

Lemma run_shell_bind {A B : Type} (m : shell A) (f : A -> shell B) (h : host) :
  run_shell (bind m f) h =
  match run_shell m h with
  | (Ok a, h') => run_shell (f a) h'
  | (Err e, h') => (Err e, h')
  end.
Proof.
  revert h. induction m as [a | e | X c k IH | target referer k IH | endpoint form k IH];
    intros h; cbn [bind Monad_shell shell_bind run_shell]; try reflexivity.
  - destruct (run c (core_world h)) as [r w]. apply IH.
  - apply IH.
  - apply IH.
Qed.

Lemma run_shell_core {A : Type} (m : io A) (h : host) :
  run_shell (core m) h = (fst (run m (core_world h)), with_core (snd (run m (core_world h))) h).
Proof.
  unfold core. cbn [run_shell].
  destruct (run m (core_world h)) as [[a | e] w]; reflexivity.
Qed.

Lemma run_shell_say (text : string) (h : host) :
  run_shell (say text) h = (Ok tt, said text h).
Proof. reflexivity. Qed.

Lemma run_shell_pure {A : Type} (r : result A) (h : host) :
  run_shell (pure r) h = (r, h).
Proof. destruct r; reflexivity. Qed.

(** Running a coroutine never gives the operator's input back. *)
Lemma run_stdin_le {A : Type} (m : io A) (w : world) :
  (length (stdin (snd (run m w))) <= length (stdin w))%nat.
Proof.
  revert w. induction m as [a | e | text k IH | prompt k IH | target k IH];
    intros w; cbn [run]; try (cbn; lia).
  - etransitivity; [apply IH |]. cbn. lia.
  - unfold read_line. destruct (stdin w) as [| line rest] eqn:Hin.
    + etransitivity; [apply IH |]. cbn. rewrite Hin. cbn. lia.
    + etransitivity; [apply IH |]. cbn. lia.
  - unfold send. etransitivity; [apply IH |]. cbn. lia.
Qed.

Lemma run_shell_stdin_le {A : Type} (m : shell A) (h : host) :
  (length (stdin (core_world (snd (run_shell m h)))) <= length (stdin (core_world h)))%nat.
Proof.
  revert h. induction m as [a | e | X c k IH | target referer k IH | endpoint form k IH];
    intros h; cbn [run_shell]; try (cbn; lia).
  - pose proof (run_stdin_le c (core_world h)) as Hc.
    destruct (run c (core_world h)) as [r w]. cbn [snd] in Hc.
    etransitivity; [apply IH |]. cbn. exact Hc.
  - etransitivity; [apply IH |]. cbn. lia.
  - etransitivity; [apply IH |]. cbn. lia.
Qed.

Section MainProperties.
Context {rt : PyRuntime} {links : LinkTemplates} {os : Host}.
Variable token : string.

(** A round reads its command line first. *)
Lemma run_round (current_channel : option string) (h : host) :
  run_shell (round token current_channel) h =
  match stdin (core_world h) with
  | [] => (Err EOFError, with_core (write "command>" (core_world h)) h)
  | line :: rest =>
      run_shell (dispatch token current_channel line) (prompted "command>" rest h)
  end.
Proof.
  unfold round. rewrite run_shell_bind, run_shell_core.
  cbn [run input]. unfold read_line.
  destruct (stdin (core_world h)) as [| line rest]; reflexivity.
Qed.

(** X16. [main] cannot loop forever on a finite input: every round reads
    at least one line and none is ever given back, so more rounds than
    there are lines of input are never needed.  The loop ends by [quit],
    or with an exception ([EOFError] at the end of the input at the
    latest). *)
Theorem main_ends (rounds : nat) (current_channel : option string) (h : host) :
  (length (stdin (core_world h)) < rounds)%nat ->
  match fst (run_shell (main_from token rounds current_channel) h) with
  | Ok (Unfinished _) => False
  | Ok Returned | Err _ => True
  end.
Proof.
  revert current_channel h.
  induction rounds as [| rounds IH]; intros current_channel h Hlen; [lia |].
  cbn [main_from]. rewrite run_shell_bind, run_round.
  destruct (stdin (core_world h)) as [| line rest] eqn:Hin; [exact I |].
  pose proof (run_shell_stdin_le (dispatch token current_channel line)
                (prompted "command>" rest h)) as Hle.
  destruct (run_shell (dispatch token current_channel line) (prompted "command>" rest h))
    as [[next | e] h']; [| exact I].
  destruct next as [channel |]; [| exact I].
  apply IH. cbn [snd] in Hle. cbn in Hle, Hlen. lia.
Qed.

(** X17. A command line that [shlex] refuses and a line without any
    word are answered alike: the round prints [Invalid command], keeps the
    channel, touches no network and goes on to the next round. *)
Theorem round_invalid_command
    (current_channel : option string) (h : host) (line : string) (rest : list string) :
  stdin (core_world h) = line :: rest ->
  shlex_split line = None \/ shlex_split line = Some [] ->
  run_shell (round token current_channel) h =
  (Ok (Continue current_channel), said "Invalid command" (prompted "command>" rest h)).
Proof.
  intros Hin Hsplit. rewrite run_round, Hin. unfold dispatch, split_command.
  destruct Hsplit as [-> | ->]; reflexivity.
Qed.

(** A command line either causes no traffic at all, or it is a [send]
    with a channel and a URL that matches, and the round is [send_url]. *)
Lemma dispatch_quiet_or_send (current_channel : option string) (line : string) (h : host) :
  traffic (snd (run_shell (dispatch token current_channel line) h)) = traffic h
  \/ exists command url more channel found,
       split_command line = Some (command, url :: more)
       /\ lower command = "send"
       /\ current_channel = Some channel
       /\ fullmatch URL_PATTERN url = Some found
       /\ snd (run_shell (dispatch token current_channel line) h)
          = snd (run_shell (send_url token channel url) h).
Proof.
  unfold dispatch.
  destruct (split_command line) as [[command arguments] |]; [| left; reflexivity].
  cbv zeta.
  destruct (String.eqb (lower command) "help"); [left; reflexivity |].
  destruct (String.eqb (lower command) "quit"); [left; reflexivity |].
  destruct (String.eqb (lower command) "set").
  { destruct arguments; left; reflexivity. }
  destruct (String.eqb (lower command) "send") eqn:Hsend; [| left; reflexivity].
  apply String.eqb_eq in Hsend.
  destruct current_channel as [channel |]; [| left; reflexivity].
  destruct arguments as [| url more]; [left; reflexivity |].
  destruct (fullmatch URL_PATTERN url) as [found |] eqn:Hmatch.
  - right. exists command, url, more, channel, found.
    repeat split; try assumption.
    rewrite run_shell_bind.
    destruct (run_shell (send_url token channel url) h) as [[[] | e] h']; reflexivity.
  - left. unfold send_url. rewrite Hmatch. reflexivity.
Qed.

(** X18. Traffic needs a [send] with a channel set and a URL argument,
    and, when that URL is ASCII text, one that [URL_PATTERN] accepts: after
    every other command line (a refused line, [help], [quit], [set], an
    unknown command, a [send] without channel or without argument, a [send]
    with an ASCII URL that the pattern refuses) no request has been sent to
    the provider, nothing downloaded and nothing posted. *)
Theorem traffic_needs_send (current_channel : option string) (line : string) (h : host) :
  traffic (snd (run_shell (dispatch token current_channel line) h)) = traffic h
  \/ exists command url more channel,
       split_command line = Some (command, url :: more)
       /\ lower command = "send"
       /\ current_channel = Some channel
       /\ (ascii_text url = true ->
           exists found, fullmatch URL_PATTERN url = Some found).
Proof.
  destruct (dispatch_quiet_or_send current_channel line h)
    as [Hquiet | (command & url & more & channel & found & H1 & H2 & H3 & H4 & _)].
  - left. exact Hquiet.
  - right. exists command, url, more, channel.
    repeat split; try assumption. intros _. exists found. exact H4.
Qed.

(** What [send] does once the URL has matched and its digits have been
    read as [artwork_id], step by step. *)
Lemma run_send_url
    (channel url : string) (found : captures) (artwork_id : Z) (h : host) :
  fullmatch URL_PATTERN url = Some found ->
  group_as_int found = Ok artwork_id ->
  run_shell (send_url token channel url) h =
  match run (PixivArtwork.get artwork_id) (core_world h) with
  | (Err e, w1) => (Err e, with_core w1 h)
  | (Ok None, w1) => (Ok tt, said "Cannot find such artwork!" (with_core w1 h))
  | (Ok (Some artwork), w1) =>
      match run (PixivArtwork.get_image_url artwork) w1 with
      | (Err e, w2) => (Err e, with_core w2 h)
      | (Ok image_url, w2) =>
          let h2 := downloaded image_url (with_core w2 h) in
          match read_image (image_server h image_url) with
          | Err ClientError =>
              (Ok tt, said ("Cannot fetch image from " ++ py_str image_url ++ "!") h2)
          | Err e => (Err e, h2)
          | Ok data =>
              match PixivArtwork.create_embed artwork "image.png" with
              | Err e => (Err e, h2)
              | Ok embed =>
                  let h3 := posted (endpoint_of channel) (form_of token embed data) h2 in
                  match platform h (endpoint_of channel) (form_of token embed data) with
                  | Ok code => (Ok tt, said ("HTTP status " ++ str_of_int code) h3)
                  | Err e => (Err e, h3)
                  end
              end
          end
      end
  end.
Proof.
  intros Hmatch Hid. unfold send_url. rewrite Hmatch.
  rewrite run_shell_bind, run_shell_pure, Hid.
  rewrite run_shell_bind, run_shell_core.
  destruct (run (PixivArtwork.get artwork_id) (core_world h)) as [[[artwork |] | e] w1];
    cbn [fst snd]; try reflexivity.
  rewrite run_shell_bind, run_shell_core. cbn [core_world with_core].
  destruct (run (PixivArtwork.get_image_url artwork) w1) as [[image_url | e] w2];
    cbn [fst snd]; [| reflexivity].
  cbn [run_shell with_core core_world image_server platform downloads posts].
  unfold downloaded, with_core. cbn [core_world image_server platform downloads posts].
  destruct (read_image (image_server h image_url)) as [data | e].
  - unfold post_artwork. rewrite run_shell_bind, run_shell_pure.
    destruct (PixivArtwork.create_embed artwork "image.png") as [embed | e];
      [| reflexivity].
    cbn [run_shell platform]. unfold endpoint_of, form_of, posted.
    cbn [core_world image_server platform downloads posts].
    destruct (platform h _ _); reflexivity.
  - destruct e; reflexivity.
Qed.


Lemma run_get_image_url_requests (self : PixivArtwork.t) (w : world) :
  requests (snd (run (PixivArtwork.get_image_url self) w)) = requests w.
Proof.
  rewrite get_image_url_cases.
  destruct (py_getitem (PixivArtwork.image_urls self) "regular") as [v | e];
    [| reflexivity].
  destruct v; try reflexivity.
  cbn [run]. unfold read_line, write. cbn [stdin].
  destruct (stdin w); reflexivity.
Qed.






(** X22. [send] on the canonical link of an Artwork asks the provider for
    that Artwork's id: with a runtime whose [int] reads the decimal text of
    the id back, exactly one request is sent, to the metadata endpoint of
    that id, whatever happens afterwards. *)
Theorem send_canonical_link (channel : string) (self : PixivArtwork.t) (h : host) :
  0 <= PixivArtwork.id self ->
  int_of_str (str_of_int (PixivArtwork.id self)) = Some (PixivArtwork.id self) ->
  requests (core_world (snd (run_shell (send_url token channel (PixivArtwork.url self)) h)))
  = app (requests (core_world h))
      ["https://www.pixiv.net/ajax/illust/" ++ str_of_int (PixivArtwork.id self)].
Proof.
  intros Hz Hint.
  pose proof (canonical_link_matches self) as Hlink.
  apply Z.leb_le in Hz. rewrite Hz in Hlink.
  destruct (fullmatch URL_PATTERN (PixivArtwork.url self)) as [found |] eqn:Hmatch;
    [| discriminate Hlink].
  cbn [option_map] in Hlink. injection Hlink as Hgroup.
  assert (Hid : group_as_int found = Ok (PixivArtwork.id self)).
  { unfold group_as_int. rewrite Hgroup. cbn [py_int]. rewrite Hint. reflexivity. }
  rewrite (run_send_url channel _ found _ h Hmatch Hid), run_get.
  destruct (get_outcome (provider (core_world h) (illust_url (PixivArtwork.id self))))
    as [[artwork |] | e]; try reflexivity.
  pose proof (run_get_image_url_requests artwork
                (after_request (PixivArtwork.id self) (core_world h))) as Hreq.
  destruct (run (PixivArtwork.get_image_url artwork)
              (after_request (PixivArtwork.id self) (core_world h)))
    as [[image_url | e] w2]; cbn [snd] in Hreq; [| cbn; rewrite Hreq; reflexivity].
  cbv zeta.
  destruct (read_image (image_server h image_url)) as [data | e].
  - destruct (PixivArtwork.create_embed artwork "image.png") as [embed | e];
      [| cbn; rewrite Hreq; reflexivity].
    destruct (platform h (endpoint_of channel) (form_of token embed data));
      cbn; rewrite Hreq; reflexivity.
  - destruct e; cbn; rewrite Hreq; reflexivity.
Qed.

End MainProperties.

(* --------------------------------------------------------------------- *)
(** *** The further properties on concrete inputs *)
(* --------------------------------------------------------------------- *)

(** The nested form constructs [nested_artwork]. *)
Example nested_constructs :
  PixivArtwork.__init__ (rt := Reference.runtime) Reference.sunset_nested
  = Ok ReferenceHost.nested_artwork.
Proof. reflexivity. Qed.

(** A whole session: set a channel, send the example, quit. *)
Example session_posts_once :
  let outcome :=
    run_shell
      (main (rt := Reference.runtime) (links := Reference.templates)
            (os := ReferenceHost.os) "secret" 5)
      (ReferenceHost.host_of
         (ReferenceHost.serving
            ["set 42"; "SEND https://www.pixiv.net/en/artworks/123"; "quit"; "help"])
         (Ok {| download_status := 200; content := Ok "PNG" |}) (Ok 200)) in
  fst outcome = Ok Returned
  /\ stdin (core_world (snd outcome)) = ["help"]
  /\ requests (core_world (snd outcome)) = ["https://www.pixiv.net/ajax/illust/123"]
  /\ downloads (snd outcome) = [VStr "http://x/img.png"]
  /\ map fst (posts (snd outcome)) = ["https://discord.com/api/v10/channels/42/messages"]
  /\ map (fun p => authorization (snd p)) (posts (snd outcome)) = ["Bot secret"]
  /\ stdout (core_world (snd outcome))
     = ["command>"; "Set target channel ID to 42" ++ newline;
        "command>"; "HTTP status 200" ++ newline; "command>"].
Proof. vm_compute. repeat split. Qed.

(** The loop on the plain-tags example: the image is downloaded, then
    rendering raises and [main] ends with that exception, nothing
    posted. *)
Example session_plain_tags :
  let outcome :=
    run_shell
      (main (rt := Reference.runtime) (links := Reference.templates)
            (os := ReferenceHost.os) "secret" 5)
      (ReferenceHost.host_of
         (Reference.world_of (Ok (Reference.ok_response Reference.sunset))
            ["set 42"; "send https://www.pixiv.net/artworks/123"; "quit"])
         (Ok {| download_status := 200; content := Ok "PNG" |}) (Ok 200)) in
  fst outcome = Err AttributeError
  /\ downloads (snd outcome) = [VStr "http://x/img.png"]
  /\ posts (snd outcome) = [].
Proof. vm_compute. repeat split. Qed.

Lemma get_never_raises_suppressed_witness :
  KeyError "title" <> ClientError /\ KeyError "title" <> TimeoutError.
Proof.
  apply (get_never_raises_suppressed (rt := Reference.runtime) 123
           (Reference.world_of
              (Ok (Reference.ok_response (Reference.without_field "title" Reference.sunset)))
              [])).
  reflexivity.
Defined.

Lemma get_bad_envelope_raises_witness :
  fst (run (PixivArtwork.get (rt := Reference.runtime) 123)
         (Reference.world_of (Ok {| status := 200; json := Ok (VList []) |}) []))
  = Err TypeError.
Proof.
  exact (get_bad_envelope_raises (rt := Reference.runtime) 123
           (Reference.world_of (Ok {| status := 200; json := Ok (VList []) |}) [])
           {| status := 200; json := Ok (VList []) |} (VList [])
           eq_refl eq_refl eq_refl).
Defined.

Lemma get_image_url_eof_witness :
  fst (run (PixivArtwork.get_image_url
              (Reference.with_image_urls (VDict [("regular", VNone)])
                 Reference.sunset_artwork))
         (Reference.world_of (Err ClientError) []))
  = Err EOFError.
Proof.
  rewrite (get_image_url_eof
             (Reference.with_image_urls (VDict [("regular", VNone)])
                Reference.sunset_artwork)
             (Reference.world_of (Err ClientError) []) eq_refl eq_refl).
  reflexivity.
Defined.

Lemma get_image_url_unchecked_witness :
  PixivArtwork.get_image_url
    (Reference.with_image_urls (VDict [("regular", VInt 5)]) Reference.sunset_artwork)
  = Ret (VInt 5).
Proof.
  apply (get_image_url_unchecked
           (Reference.with_image_urls (VDict [("regular", VInt 5)]) Reference.sunset_artwork)
           (VInt 5) eq_refl eq_refl).
Defined.

Lemma init_reads_required_fields_only_witness :
  PixivArtwork.__init__ (rt := Reference.runtime)
    (Reference.with_field "likeCount" (VInt 7) Reference.sunset)
  = PixivArtwork.__init__ (rt := Reference.runtime) Reference.sunset.
Proof.
  apply (init_reads_required_fields_only (rt := Reference.runtime)).
  intros key Hin. unfold required_fields in Hin. cbn [In] in Hin.
  repeat (destruct Hin as [<- | Hin]; [reflexivity |]).
  contradiction.
Defined.

Lemma url_determines_id_witness :
  PixivArtwork.id ReferenceHost.nested_artwork = PixivArtwork.id Reference.sunset_artwork.
Proof.
  apply (url_determines_id ReferenceHost.nested_artwork Reference.sunset_artwork).
  reflexivity.
Defined.

Lemma create_embed_attachment_name_witness :
  option_map Embed.image
    match PixivArtwork.create_embed (rt := Reference.runtime) (links := Reference.templates)
            ReferenceHost.nested_artwork "cover.jpg" with
    | Ok embed => Some embed
    | Err _ => None
    end
  = Some (Some "attachment://cover.jpg").
Proof.
  destruct (PixivArtwork.create_embed (rt := Reference.runtime)
              (links := Reference.templates) ReferenceHost.nested_artwork "image.png")
    as [embed | e] eqn:Hembed; [| vm_compute in Hembed; discriminate Hembed].
  rewrite (create_embed_attachment_name (rt := Reference.runtime)
             (links := Reference.templates) ReferenceHost.nested_artwork
             "image.png" "cover.jpg" embed Hembed).
  reflexivity.
Defined.

Lemma create_embed_tags_value_witness :
  ReferenceHost.tags_come_first.
Proof.
  unfold ReferenceHost.tags_come_first.
  destruct (PixivArtwork.create_embed (rt := Reference.runtime)
              (links := Reference.templates) ReferenceHost.nested_artwork "image.png")
    as [embed | e] eqn:Hembed; [| vm_compute in Hembed; discriminate Hembed].
  exists embed. split; [reflexivity |].
  rewrite (create_embed_tags_value (rt := Reference.runtime)
             (links := Reference.templates) ReferenceHost.nested_artwork
             _ _ "image.png" embed eq_refl Hembed).
  reflexivity.
Defined.

Lemma init_nested_tags_missing_witness :
  PixivArtwork.__init__ (rt := Reference.runtime)
    (Reference.with_field "tags" (VDict []) Reference.sunset)
  = Err (KeyError "tags").
Proof.
  apply (init_nested_tags_missing (rt := Reference.runtime)
           (Reference.with_field "tags" (VDict []) Reference.sunset) []);
    reflexivity.
Defined.

Lemma main_ends_witness :
  match
    fst (run_shell
           (main_from (rt := Reference.runtime) (links := Reference.templates)
              (os := ReferenceHost.os) "secret" 3 None)
           (ReferenceHost.host_of (ReferenceHost.serving ["help"; "nothing"])
              (Err ClientError) (Err ClientError)))
  with
  | Ok (Unfinished _) => False
  | Ok Returned | Err _ => True
  end.
Proof.
  apply (main_ends (rt := Reference.runtime) (links := Reference.templates)
           (os := ReferenceHost.os) "secret" 3 None
           (ReferenceHost.host_of (ReferenceHost.serving ["help"; "nothing"])
              (Err ClientError) (Err ClientError))).
  cbn. lia.
Defined.

(** Without [quit], the session above ends at the end of its input. *)
Example session_runs_out_of_input :
  fst (run_shell
         (main_from (rt := Reference.runtime) (links := Reference.templates)
            (os := ReferenceHost.os) "secret" 3 None)
         (ReferenceHost.host_of (ReferenceHost.serving ["help"; "nothing"])
            (Err ClientError) (Err ClientError)))
  = Err EOFError.
Proof. reflexivity. Qed.

Lemma round_invalid_command_witness :
  fst (run_shell
         (round (rt := Reference.runtime) (links := Reference.templates)
            (os := ReferenceHost.os) "secret" (Some "42"))
         (ReferenceHost.host_of (ReferenceHost.serving ["   "; "quit"])
            (Err ClientError) (Err ClientError)))
  = Ok (Continue (Some "42")).
Proof.
  rewrite (round_invalid_command (rt := Reference.runtime) (links := Reference.templates)
             (os := ReferenceHost.os) "secret" (Some "42")
             (ReferenceHost.host_of (ReferenceHost.serving ["   "; "quit"])
                (Err ClientError) (Err ClientError))
             "   " ["quit"] eq_refl (or_intror eq_refl)).
  reflexivity.
Defined.



(** A timeout of the download is not caught. *)
Example send_download_timeout :
  fst (run_shell
         (send_url (rt := Reference.runtime) (links := Reference.templates) "secret" "42"
            "https://www.pixiv.net/en/artworks/123")
         (ReferenceHost.host_of (ReferenceHost.serving []) (Err TimeoutError) (Ok 200)))
  = Err TimeoutError.
Proof. reflexivity. Qed.

Lemma send_canonical_link_witness :
  requests
    (core_world
       (snd (run_shell
               (send_url (rt := Reference.runtime) (links := Reference.templates)
                  "secret" "42" (PixivArtwork.url ReferenceHost.nested_artwork))
               (ReferenceHost.host_of (ReferenceHost.serving [])
                  (Ok {| download_status := 200; content := Ok "PNG" |}) (Ok 200)))))
  = ["https://www.pixiv.net/ajax/illust/123"].
Proof.
  apply (send_canonical_link (rt := Reference.runtime) (links := Reference.templates)
           "secret" "42" ReferenceHost.nested_artwork
           (ReferenceHost.host_of (ReferenceHost.serving [])
              (Ok {| download_status := 200; content := Ok "PNG" |}) (Ok 200))).
  - cbn. lia.
  - reflexivity.
Defined.

(* ===================================================================== *)
(** ** Rendering and the time zone of the process *)
(* ===================================================================== *)

Section Zones.
Context {rt : PyRuntime} {links : LinkTemplates}.

(** Rendering under a time zone is the conversion of the timestamp, which
    comes first, and then the rendering of the rest. *)
Lemma localized_create_embed {zone : LocalZone}
    (self : PixivArtwork.t) (attachment_name : string) :
  Localized.create_embed self attachment_name =
  match Localized.set_timestamp (PixivArtwork.created_at self) with
  | Err e => Err e
  | Ok stamp =>
      match PixivArtwork.create_embed self attachment_name with
      | Err e => Err e
      | Ok embed => Ok (Localized.restamp stamp embed)
      end
  end.
Proof.
  unfold Localized.create_embed, Localized.Embed_init, PixivArtwork.create_embed.
  cbn [bind ret Monad_result].
  destruct (Localized.set_timestamp (PixivArtwork.created_at self)) as [stamp | e];
    cbn [result_bind]; [| reflexivity].
  destruct (PixivArtwork.tags_truthy (PixivArtwork.tags self)); cbn [result_bind].
  - destruct (PixivArtwork.tags_iter (PixivArtwork.tags self)) as [items | e];
      cbn [result_bind]; [| reflexivity].
    destruct (traverse PixivArtwork.tag_markup items) as [parts | e];
      cbn [result_bind]; [| reflexivity].
    destruct (escape (PartialUser.name (PixivArtwork.author self))) as [name | e];
      reflexivity.
  - destruct (escape (PartialUser.name (PixivArtwork.author self))) as [name | e];
      reflexivity.
Qed.

(** C9, as the code has it.  [create_embed] prints nothing, asks nothing
    and sends nothing, but its payload is not a function of the Artwork and
    the attachment name alone: for a naive [created_at], [discord.Embed]
    converts the timestamp under the time zone of the process.  That
    conversion is the only way the zone comes in: two invocations give the
    same outcome whenever the zone converts [created_at] alike, and always
    when [created_at] carries a UTC offset; two payloads rendered under
    different zones agree on title, link, colour, image and fields; and the
    timestamp of a payload is [created_at] as the setter of the embed
    converted it. *)
Theorem create_embed_zone
    (self : PixivArtwork.t) (attachment_name : string) (here there : LocalZone)
    (w : world) :
  run (lift (Localized.create_embed (zone := here) self attachment_name)) w
  = (Localized.create_embed (zone := here) self attachment_name, w)
  /\ (utcoffset (PixivArtwork.created_at self) <> None ->
      Localized.create_embed (zone := here) self attachment_name
      = Localized.create_embed (zone := there) self attachment_name)
  /\ (astimezone (LocalZone := here) (PixivArtwork.created_at self)
      = astimezone (LocalZone := there) (PixivArtwork.created_at self) ->
      Localized.create_embed (zone := here) self attachment_name
      = Localized.create_embed (zone := there) self attachment_name)
  /\ (forall one other,
        Localized.create_embed (zone := here) self attachment_name = Ok one ->
        Localized.create_embed (zone := there) self attachment_name = Ok other ->
        Embed.title one = Embed.title other
        /\ Embed.url one = Embed.url other
        /\ Embed.colour one = Embed.colour other
        /\ Embed.image one = Embed.image other
        /\ Embed.fields one = Embed.fields other)
  /\ (forall one,
        Localized.create_embed (zone := here) self attachment_name = Ok one ->
        exists stamp,
          Localized.set_timestamp (zone := here) (PixivArtwork.created_at self) = Ok stamp
          /\ Embed.timestamp one = Some stamp).
Proof.
  split; [| split; [| split; [| split]]].
  - destruct (Localized.create_embed (zone := here) self attachment_name); reflexivity.
  - intros Haware. rewrite !localized_create_embed. unfold Localized.set_timestamp.
    destruct (utcoffset (PixivArtwork.created_at self)); [reflexivity |].
    contradiction Haware. reflexivity.
  - intros Hsame. rewrite !localized_create_embed. unfold Localized.set_timestamp.
    rewrite Hsame. reflexivity.
  - intros one other. rewrite !localized_create_embed.
    destruct (Localized.set_timestamp (zone := here) (PixivArtwork.created_at self))
      as [stamp1 | e]; [| discriminate].
    destruct (Localized.set_timestamp (zone := there) (PixivArtwork.created_at self))
      as [stamp2 | e]; [| discriminate].
    destruct (PixivArtwork.create_embed self attachment_name) as [embed | e];
      [| discriminate].
    intros H1 H2. injection H1 as <-. injection H2 as <-. repeat split.
  - intros one. rewrite localized_create_embed.
    destruct (Localized.set_timestamp (zone := here) (PixivArtwork.created_at self))
      as [stamp | e]; [| discriminate].
    destruct (PixivArtwork.create_embed self attachment_name) as [embed | e];
      [| discriminate].
    intros H. injection H as <-. exists stamp. split; reflexivity.
Qed.

(** X10. Under a time zone, [create_embed] returns a payload exactly when
    the setter of the embed can convert [created_at] (it carries a UTC
    offset, or [astimezone()] succeeds on it), the author name is a string,
    and the tag list is either a list of tag objects or a falsy value
    stored as the provider gave it; in every other case it raises. *)
Theorem localized_create_embed_succeeds_iff {zone : LocalZone}
    (self : PixivArtwork.t) (attachment_name : string) :
  (exists embed, Localized.create_embed self attachment_name = Ok embed) <->
  (exists stamp, Localized.set_timestamp (PixivArtwork.created_at self) = Ok stamp)
  /\ (exists name, PartialUser.name (PixivArtwork.author self) = VStr name)
  /\ match PixivArtwork.tags self with
     | PixivArtwork.TagObjects _ => True
     | PixivArtwork.AsGiven v => py_bool v = false
     end.
Proof.
  rewrite localized_create_embed.
  pose proof (create_embed_unstamped_iff self attachment_name) as Hplain.
  split.
  - intros [embed H].
    destruct (Localized.set_timestamp (PixivArtwork.created_at self)) as [stamp | e];
      [| discriminate H].
    split; [exists stamp; reflexivity |].
    apply Hplain.
    destruct (PixivArtwork.create_embed self attachment_name) as [plain | e];
      [exists plain; reflexivity | discriminate H].
  - intros [[stamp ->] Hrest]. apply Hplain in Hrest as [plain ->].
    eexists. reflexivity.
Qed.

End Zones.

(** The claim C9 as it is worded fails on the nested form of the example,
    whose [createDate] has no UTC offset: rendered in a process at UTC and
    in one nine hours ahead, the same Artwork under the same attachment
    name gives two payloads with different timestamps. *)
Lemma rendering_reads_time_zone :
  ~ Localized.zone_blind (rt := Reference.runtime) (links := Reference.templates)
      ReferenceHost.nested_artwork "image.png".
Proof.
  intros Hblind.
  specialize (Hblind (Localized.fixed_zone 0) (Localized.fixed_zone 32400)).
  vm_compute in Hblind. discriminate Hblind.
Qed.

(** With a [createDate] that carries its offset, the zone of the process
    does not matter. *)
Lemma create_embed_zone_witness :
  Localized.create_embed (rt := Reference.runtime) (links := Reference.templates)
    (zone := Localized.fixed_zone 0)
    (PixivArtwork.mk 123 (VStr "Sunset") (PartialUser.mk (VInt 5) (VStr "Ann")) false
       (mk_datetime 2023 1 1 0 0 0 0 (Some 32400)) (PixivArtwork.TagObjects [])
       (VInt 800) (VInt 600) (VInt 1) (VDict []))
    "image.png"
  = Localized.create_embed (rt := Reference.runtime) (links := Reference.templates)
      (zone := Localized.fixed_zone 32400)
      (PixivArtwork.mk 123 (VStr "Sunset") (PartialUser.mk (VInt 5) (VStr "Ann")) false
         (mk_datetime 2023 1 1 0 0 0 0 (Some 32400)) (PixivArtwork.TagObjects [])
         (VInt 800) (VInt 600) (VInt 1) (VDict []))
      "image.png".
Proof.
  refine (proj1 (proj2
            (create_embed_zone (rt := Reference.runtime) (links := Reference.templates)
               (PixivArtwork.mk 123 (VStr "Sunset") (PartialUser.mk (VInt 5) (VStr "Ann"))
                  false (mk_datetime 2023 1 1 0 0 0 0 (Some 32400))
                  (PixivArtwork.TagObjects []) (VInt 800) (VInt 600) (VInt 1) (VDict []))
               "image.png" (Localized.fixed_zone 0) (Localized.fixed_zone 32400)
               (Reference.world_of (Err ClientError) []))) _).
  cbn. discriminate.
Defined.

(** The C2 theorem on the response that cannot be read as JSON. *)
Lemma get_none_iff_witness :
  run (PixivArtwork.get (rt := Reference.runtime) 123)
      (Reference.world_of (Ok {| status := 200; json := Err ClientError |}) [])
  = (Ok None,
     after_request 123
       (Reference.world_of (Ok {| status := 200; json := Err ClientError |}) [])).
Proof.
  apply (get_none_iff (rt := Reference.runtime) 123
           (Reference.world_of (Ok {| status := 200; json := Err ClientError |}) [])).
  apply (cause_body {| status := 200; json := Err ClientError |} ClientError);
    [reflexivity | reflexivity | left; reflexivity].
Defined.

(** A link without separator after its digits: the pattern reads 12. *)
Lemma url_pattern_accepts_witness :
  option_map (group 2) (fullmatch URL_PATTERN "https://www.pixiv.net/artworks/12abc")
  = Some (Some "12").
Proof.
  apply (url_pattern_accepts "https://www.pixiv.net/artworks/12abc" "12" eq_refl).
  exists "", "abc". repeat split; try reflexivity; [left; reflexivity | discriminate].
Defined.
